(** * Smart WebDAV gateway: the routing proxy of [smart_webdav_gui.py]

    A shallow embedding of the request classifier ([get_target_url]), the
    header sanitizers ([clean_headers] and the response-side filter), the
    per-request handler ([proxy]), the server thread ([run_flask]) and the
    two GUI callbacks that touch the shared configuration ([save_config],
    [toggle_server]), followed by the properties of the specification that
    concern them.

    Conventions.
    - A Python [str] is a list of Unicode code points, a Python [bytes] is a
      list of [byte].  Source literals are written with [lit], which reads
      the UTF-8 text of the literal exactly as Python reads the source file.
    - A Python [dict] is an association list in insertion order with unique
      keys; assigning to an existing key keeps its position.
    - A call that may raise returns a [result]; code that also logs runs in
      the monad [M], whose state is the log sink.
    - What the libraries do (the [requests] call and its content decoding,
      werkzeug's header check, the builtin [int], [Flask.run]) is not in the
      source: it is a [Variable] of the section [World], so every theorem
      holds for all behaviours.  The defaults Flask's [Response] sets on its
      headers are written out in [Response_init]. *)

From Stdlib Require Import List NArith ZArith Bool Lia Ascii String DecimalString.
From Stdlib.Strings Require Import Byte.
Import ListNotations.

Open Scope N_scope.

Ltac Zify.zify_post_hook ::= Z.to_euclidean_division_equations.

(* ================================================================== *)
(** * Text and bytes *)

(** A character is its Unicode code point. *)
Definition char := N.
Definition str := list char.
Definition bytes := list byte.

Definition str_eq_dec : forall a b : str, {a = b} + {a <> b} :=
  list_eq_dec N.eq_dec.

Definition str_eqb (a b : str) : bool :=
  if str_eq_dec a b then true else false.

(** [x in xs] on a list of strings. *)
Definition str_in (x : str) (xs : list str) : bool :=
  existsb (str_eqb x) xs.

(** ** UTF-8

    [bytes.decode('utf-8')] in its default strict mode: the well-formed byte
    sequences of the Unicode standard (no overlong forms, no surrogates,
    nothing above U+10FFFF); [None] stands for [UnicodeDecodeError]. *)

Definition is_cont (b : N) : bool := (0x80 <=? b) && (b <=? 0xBF).

Definition second_of_three (b0 b1 : N) : bool :=
  if b0 =? 0xE0 then (0xA0 <=? b1) && (b1 <=? 0xBF)
  else if b0 =? 0xED then (0x80 <=? b1) && (b1 <=? 0x9F)
  else is_cont b1.

Definition second_of_four (b0 b1 : N) : bool :=
  if b0 =? 0xF0 then (0x90 <=? b1) && (b1 <=? 0xBF)
  else if b0 =? 0xF4 then (0x80 <=? b1) && (b1 <=? 0x8F)
  else is_cont b1.

Fixpoint utf8_decode (bs : bytes) : option str :=
  match bs with
  | [] => Some []
  | b0 :: r0 =>
    let n0 := Byte.to_N b0 in
    if n0 <? 0x80 then option_map (cons n0) (utf8_decode r0)
    else
      match r0 with
      | [] => None
      | b1 :: r1 =>
        let n1 := Byte.to_N b1 in
        if (0xC2 <=? n0) && (n0 <=? 0xDF) then
          if is_cont n1
          then option_map (cons ((n0 - 0xC0) * 64 + (n1 - 0x80)))
                          (utf8_decode r1)
          else None
        else
          match r1 with
          | [] => None
          | b2 :: r2 =>
            let n2 := Byte.to_N b2 in
            if (0xE0 <=? n0) && (n0 <=? 0xEF) then
              if second_of_three n0 n1 && is_cont n2
              then option_map
                     (cons ((n0 - 0xE0) * 4096 + (n1 - 0x80) * 64 + (n2 - 0x80)))
                     (utf8_decode r2)
              else None
            else
              match r2 with
              | [] => None
              | b3 :: r3 =>
                let n3 := Byte.to_N b3 in
                if (0xF0 <=? n0) && (n0 <=? 0xF4) then
                  if second_of_four n0 n1 && is_cont n2 && is_cont n3
                  then option_map
                         (cons ((n0 - 0xF0) * 262144 + (n1 - 0x80) * 4096
                                + (n2 - 0x80) * 64 + (n3 - 0x80)))
                         (utf8_decode r3)
                  else None
                else None
              end
          end
      end
  end.

Definition byte_of_N (n : N) : byte :=
  match Byte.of_N n with Some b => b | None => x00 end.

(** [str.encode('utf-8')] on one character and on a string; used to say what
    bytes a piece of text stands for. *)
Definition utf8_encode_char (c : char) : bytes :=
  if c <? 0x80 then [byte_of_N c]
  else if c <? 0x800 then
    [byte_of_N (0xC0 + c / 64); byte_of_N (0x80 + c mod 64)]
  else if c <? 0x10000 then
    [byte_of_N (0xE0 + c / 4096); byte_of_N (0x80 + (c / 64) mod 64);
     byte_of_N (0x80 + c mod 64)]
  else
    [byte_of_N (0xF0 + c / 262144); byte_of_N (0x80 + (c / 4096) mod 64);
     byte_of_N (0x80 + (c / 64) mod 64); byte_of_N (0x80 + c mod 64)].

Definition utf8_encode (s : str) : bytes := flat_map utf8_encode_char s.

(** A literal of the source file. *)
Definition lit (s : string) : str :=
  match utf8_decode (list_byte_of_string s) with
  | Some t => t
  | None => []
  end.

(** ** Case mapping

    [str.lower] and [str.upper] on the characters below 256.  Method and
    header names reach the program decoded as ISO-8859-1, so these are the
    characters they are made of; the tables are Python's on that range
    (sharp s upper-cases to two letters, y-diaeresis and the micro sign
    leave the range).  Characters from 256 on are left as they are. *)

Definition lower_char (c : char) : char :=
  if (65 <=? c) && (c <=? 90) then c + 32
  else if (192 <=? c) && (c <=? 222) && negb (c =? 215) then c + 32
  else c.

Definition lower (s : str) : str := map lower_char s.

Definition upper_char (c : char) : list char :=
  if (97 <=? c) && (c <=? 122) then [c - 32]
  else if c =? 181 then [924]
  else if c =? 223 then [83; 83]
  else if (224 <=? c) && (c <=? 254) && negb (c =? 247) then [c - 32]
  else if c =? 255 then [376]
  else [c].

Definition upper (s : str) : str := flat_map upper_char s.

(** [s.rstrip(chars)]: drop every trailing character that occurs in
    [chars]. *)
Fixpoint rstrip (chars : str) (s : str) : str :=
  match s with
  | [] => []
  | x :: r =>
    match rstrip chars r with
    | [] => if existsb (N.eqb x) chars then [] else [x]
    | r' => x :: r'
    end
  end.

(** [str(n)] for an integer. *)
Definition str_of_Z (z : Z) : str :=
  lit (NilEmpty.string_of_int (Z.to_int z)).

(* ================================================================== *)
(** * Dictionaries *)

Section Dict.
Context {V : Type}.

Definition dict := list (str * V).

(** [d.get(k)]. *)
Fixpoint dict_get (k : str) (d : dict) : option V :=
  match d with
  | [] => None
  | (k', v) :: r => if str_eqb k' k then Some v else dict_get k r
  end.

(** [d[k] = v]: overwrite in place, or append a new key. *)
Fixpoint dict_set (k : str) (v : V) (d : dict) : dict :=
  match d with
  | [] => [(k, v)]
  | (k', v') :: r =>
    if str_eqb k' k then (k', v) :: r else (k', v') :: dict_set k v r
  end.

(** [k in d]. *)
Definition dict_contains (k : str) (d : dict) : bool :=
  match dict_get k d with Some _ => true | None => false end.

Definition dict_keys (d : dict) : list str := map fst d.

(** [d.items()]. *)
Definition dict_items (d : dict) : list (str * V) := d.

(** The value of the last pair with key [k] in a sequence of pairs. *)
Definition last_value (k : str) (kvs : list (str * V)) : option V :=
  dict_get k (rev kvs).
End Dict.

Arguments dict : clear implicits.

(* ================================================================== *)
(** * Exceptions, results and the logging monad *)

Inductive exn_class :=
| UnicodeDecodeError
| AttributeError
| NameError
| RequestsConnectionError
| RequestsTimeout
| OtherException (name : str)   (* any other class derived from Exception *)
| BaseOnly (name : str).        (* derived from BaseException only *)

(** An exception object: its class and [str(e)]. *)
Record exn := mk_exn { exn_cls : exn_class; exn_text : str }.

(** What [except Exception] catches. *)
Definition is_Exception (e : exn) : bool :=
  match exn_cls e with BaseOnly _ => false | _ => true end.

(** Connection refused, DNS failure, reset, timeout. *)
Definition is_transport_error (e : exn) : bool :=
  match exn_cls e with
  | RequestsConnectionError | RequestsTimeout => true
  | _ => false
  end.

Inductive result (A : Type) :=
| Ok (a : A)
| Raised (e : exn).
Arguments Ok {A} a.
Arguments Raised {A} e.

Definition bindR {A B} (c : result A) (k : A -> result B) : result B :=
  match c with Ok a => k a | Raised e => Raised e end.

(** A line handed to the log sink: through the GUI or printed. *)
Inductive log_event :=
| GuiLog (message : str)
| Printed (message : str).

(** Computations that log and may raise. *)
Definition M (A : Type) := list log_event -> result A * list log_event.

Definition ret {A} (a : A) : M A := fun l => (Ok a, l).

Definition bind {A B} (c : M A) (k : A -> M B) : M B :=
  fun l => match c l with
           | (Ok a, l') => k a l'
           | (Raised e, l') => (Raised e, l')
           end.

Definition lift {A} (r : result A) : M A := fun l => (r, l).

(** [try: body except Exception as e: handler(e)]. *)
Definition try_except {A} (body : M A) (handler : exn -> M A) : M A :=
  fun l => match body l with
           | (Raised e, l') =>
             if is_Exception e then handler e l' else (Raised e, l')
           | r => r
           end.

Declare Scope monad_scope.
Delimit Scope monad_scope with monad.
Notation "x <- c ;; k" := (bind c (fun x => k))
  (at level 61, c at next level, right associativity) : monad_scope.
Notation "c ;;; k" := (bind c (fun _ => k))
  (at level 61, right associativity) : monad_scope.

(** The result and the lines emitted when started with an empty sink. *)
Definition run {A} (c : M A) : result A * list log_event := c [].

(* ================================================================== *)
(** * Configuration and messages *)

(** The values a configuration entry can hold. *)
Inductive value :=
| VStr (s : str)
| VInt (z : Z)
| VBool (b : bool)
| VOther (type_name : str).     (* null, float, list, object *)

Definition DEFAULT_CONFIG : dict value :=
  [ (lit "tailscale_url", VStr (lit "http://192.168.100.10:5000"));
    (lit "cloudflare_url", VStr (lit "https://nas.example.com"));
    (lit "local_port", VInt 8888);
    (lit "auto_start", VBool false) ].

(** [conf.get(k, default)]. *)
Definition conf_get (conf : dict value) (k : str) (default : value) : value :=
  match dict_get k conf with Some v => v | None => default end.

Definition type_name_of (v : value) : str :=
  match v with
  | VStr _ => lit "str"
  | VInt _ => lit "int"
  | VBool _ => lit "bool"
  | VOther n => n
  end.

(** [v.rstrip('/')]: only text has the method. *)
Definition value_rstrip (v : value) : result str :=
  match v with
  | VStr s => Ok (rstrip (lit "/") s)
  | _ => Raised (mk_exn AttributeError
                   (lit "'" ++ type_name_of v
                    ++ lit "' object has no attribute 'rstrip'"))
  end.

(** [b.decode('utf-8')]; the text of the error is abbreviated. *)
Definition decode (b : bytes) : result str :=
  match utf8_decode b with
  | Some s => Ok s
  | None => Raised (mk_exn UnicodeDecodeError
                      (lit "'utf-8' codec can't decode byte"))
  end.

(** The inbound request as Flask presents it: [headers] is
    [request.headers.items()]. *)
Record request := mk_request {
  req_method : str;
  req_query_string : bytes;
  req_headers : list (str * str);
  req_stream : bytes;
  req_cookies : list (str * str) }.

(** The keyword arguments of [requests.request]. *)
Record requests_args := mk_requests_args {
  rq_method : str;
  rq_url : str;
  rq_headers : dict str;
  rq_data : bytes;
  rq_cookies : list (str * str);
  rq_allow_redirects : bool;
  rq_stream : bool }.

(** The upstream response: [raw] is the body in the pieces in which the
    connection delivers it. *)
Record upstream_response := mk_upstream {
  status_code : Z;
  up_headers : list (str * str);
  raw : list bytes }.

(** The first argument of [Response]: a text, or the generator
    [resp.iter_content(chunk_size)] over an upstream response, from which
    nothing has been taken yet. *)
Inductive body :=
| BodyText (s : str)
| BodyStream (chunk_size : nat) (resp : upstream_response).

(** A Flask [Response]. *)
Record Response := mk_Response {
  resp_body : body;
  status : Z;
  headers : list (str * str) }.

(** ** Streaming *)

Fixpoint chunks_fuel (fuel n : nat) (l : bytes) : list bytes :=
  match fuel with
  | O => []
  | S f =>
    match l with
    | [] => []
    | _ => firstn n l :: chunks_fuel f n (skipn n l)
    end
  end.

(** Slices of at most [n] bytes, in order. *)
Definition chunks_of (n : nat) (l : bytes) : list bytes :=
  chunks_fuel (List.length l) n l.

(** The body as it comes over the connection, every piece handed on in
    slices of at most [chunk_size] bytes: what [iter_content] yields when no
    content decoding applies. *)
Definition raw_chunks (chunk_size : nat) (resp : upstream_response)
  : list bytes :=
  flat_map (chunks_of chunk_size) (raw resp).

(** A header of the given lower-case name is present, whatever its case. *)
Definition has_header (name : str) (hs : list (str * str)) : bool :=
  existsb (fun '(n, _) => str_eqb (lower n) name) hs.

(** The value of the first header of the given lower-case name. *)
Fixpoint get_header (name : str) (hs : list (str * str)) : option str :=
  match hs with
  | [] => None
  | (n, v) :: r => if str_eqb (lower n) name then Some v else get_header name r
  end.

(** [headers[key] = value] on werkzeug's [Headers]: the first header of
    that name is replaced and the others of that name dropped, or the
    header is appended. *)
Fixpoint set_header (key value : str) (hs : list (str * str))
  : list (str * str) :=
  match hs with
  | [] => [(key, value)]
  | (n, v) :: r =>
    if str_eqb (lower n) (lower key)
    then (key, value)
         :: filter (fun '(n', _) => negb (str_eqb (lower n') (lower key))) r
    else (n, v) :: set_header key value r
  end.

(** [Response(body, status=st, headers=hs)] once the headers are accepted:
    Flask's default content type is set when [hs] names none, and the
    length of a text body is set. *)
Definition Response_init (b : body) (st : Z) (hs : list (str * str))
  : Response :=
  let hs1 :=
    if has_header (lit "content-type") hs then hs
    else set_header (lit "Content-Type") (lit "text/html; charset=utf-8") hs in
  let hs2 :=
    match b with
    | BodyText s =>
      set_header (lit "Content-Length")
                 (str_of_Z (Z.of_nat (List.length (utf8_encode s)))) hs1
    | BodyStream _ _ => hs1
    end in
  mk_Response b st hs2.

(* ================================================================== *)
(** * The proxy *)

Definition READ_METHODS : list str :=
  [lit "GET"; lit "HEAD"; lit "OPTIONS"; lit "PROPFIND"].

Definition HOP_BY_HOP_HEADERS : list str :=
  [lit "connection"; lit "keep-alive"; lit "proxy-authenticate";
   lit "proxy-authorization"; lit "te"; lit "trailers";
   lit "transfer-encoding"; lit "upgrade"].

(** The branch of [get_target_url] that picks the base and the route. *)
Definition route_base (conf : dict value) (method : str) : result (str * str) :=
  if str_in (upper method) READ_METHODS then
    bindR (value_rstrip (conf_get conf (lit "tailscale_url") (VStr [])))
          (fun base => Ok (base, lit "READ (Tailscale)"))
  else
    bindR (value_rstrip (conf_get conf (lit "cloudflare_url") (VStr [])))
          (fun base => Ok (base, lit "WRITE (Cloudflare)")).

Definition get_target_url (conf : dict value) (request : request)
           (method path : str) : result (str * str) :=
  bindR (route_base conf method) (fun '(base, route_type) =>
  let target := base ++ lit "/" ++ path in
  match req_query_string request with
  | [] => Ok (target, route_type)
  | q => bindR (decode q) (fun qs => Ok (target ++ lit "?" ++ qs, route_type))
  end).

Definition keep_request_header (key : str) : bool :=
  negb (str_in (lower key) HOP_BY_HOP_HEADERS)
  && negb (str_eqb (lower key) (lit "host")).

(** One turn of the loop of [clean_headers]. *)
Definition clean_headers_body (cleaned : dict str) (item : str * str)
  : dict str :=
  let '(key, value) := item in
  if keep_request_header key then dict_set key value cleaned else cleaned.

Definition clean_headers (headers : list (str * str)) : dict str :=
  fold_left clean_headers_body headers [].

(** The two statements of [proxy] after [clean_headers]. *)
Definition add_user_agent (incoming_headers : dict str) : dict str :=
  if negb (dict_contains (lit "User-Agent") incoming_headers)
  then dict_set (lit "User-Agent") (lit "SmartWebDAVProxy/2.0")
                incoming_headers
  else incoming_headers.

(** The request side as a whole: what [proxy] hands to [requests]. *)
Definition sanitize_request_headers (headers : list (str * str)) : dict str :=
  add_user_agent (clean_headers headers).

Definition excluded_headers : list str :=
  HOP_BY_HOP_HEADERS
  ++ [lit "content-encoding"; lit "content-length";
      lit "transfer-encoding"; lit "connection"].

(** The list comprehension over [resp.headers.items()]. *)
Definition filter_response_headers (hs : list (str * str))
  : list (str * str) :=
  filter (fun '(name, _) => negb (str_in (lower name) excluded_headers)) hs.

(** Where [log_message] sends a line when [gui_instance] is bound. *)
Definition emit (gui_instance : bool) (message : str) : log_event :=
  if gui_instance then GuiLog message else Printed message.

(** What reading the unbound global raises. *)
Definition name_error : exn :=
  mk_exn NameError (lit "name 'gui_instance' is not defined").

Section World.
(** [requests.request(...)]: the upstream's answer, or the exception. *)
Variable requests_request : requests_args -> result upstream_response.
(** The check werkzeug makes on the header list when a [Response] is
    built; [None] when it passes. *)
Variable response_init_error : list (str * str) -> option exn.
(** What the client yields, for a read size, from a response whose
    [Content-Encoding] it decodes (gzip, deflate): the decoded body in the
    pieces it comes in; [None] when it applies no decoder. *)
Variable decode_content : nat -> upstream_response -> option (list bytes).
(** The global [gui_instance]: [None] while the name is not bound,
    otherwise whether the value it is bound to is true (the window is). *)
Variable gui_instance : option bool.
(** [int(v)]. *)
Variable py_int : value -> result Z.
(** [flask_app.run(port=...)]: [Ok] when the listener was bound and
    serves until the process ends, or the exception it raised. *)
Variable flask_run : Z -> result unit.

Definition log_message (message : str) : M unit :=
  fun l => match gui_instance with
           | None => (Raised name_error, l)
           | Some g => (Ok tt, l ++ [emit g message])
           end.

(** [resp.iter_content(chunk_size)]. *)
Definition iter_content (chunk_size : nat) (resp : upstream_response)
  : list bytes :=
  if has_header (lit "content-encoding") (up_headers resp) then
    match decode_content chunk_size resp with
    | Some items => items
    | None => raw_chunks chunk_size resp
    end
  else raw_chunks chunk_size resp.

(** What iterating the body of a response yields. *)
Definition body_items (b : body) : list bytes :=
  match b with
  | BodyText s => [utf8_encode s]
  | BodyStream chunk_size resp => iter_content chunk_size resp
  end.

(** [Response(stream, status=..., headers=...)]. *)
Definition make_Response (b : body) (st : Z) (hs : list (str * str))
  : result Response :=
  match response_init_error hs with
  | Some e => Raised e
  | None => Ok (Response_init b st hs)
  end.

Definition proxy (conf : dict value) (request : request) (path : str)
  : M Response :=
  (let method := req_method request in
   tr <- lift (get_target_url conf request method path) ;;
   let '(target_url, route_type) := tr in
   let incoming_headers :=
     add_user_agent (clean_headers (req_headers request)) in
   log_message (lit "[" ++ method ++ lit "] " ++ route_type
                ++ lit ": /" ++ path) ;;;
   try_except
     (resp <- lift (requests_request
                      (mk_requests_args method target_url incoming_headers
                         (req_stream request) (req_cookies request)
                         false true)) ;;
      let headers := filter_response_headers (up_headers resp) in
      lift (make_Response (BodyStream 4096 resp) (status_code resp) headers))
     (fun e =>
        let err_msg := lit "Error: " ++ exn_text e in
        log_message err_msg ;;;
        ret (Response_init (BodyText err_msg) 502 [])))%monad.

Definition run_flask (conf : dict value) : M unit :=
  (try_except
     (port <- lift (py_int (conf_get conf (lit "local_port") (VInt 8888))) ;;
      log_message (lit "服务启动中... 监听端口: " ++ str_of_Z port) ;;;
      lift (flask_run port))
     (fun e => log_message (lit "服务启动失败: " ++ exn_text e)))%monad.
End World.

(** ** Names for the parts of [proxy] *)

(** The configuration key [get_target_url] reads for a method. *)
Definition route_key (method : str) : str :=
  if str_in (upper method) READ_METHODS then lit "tailscale_url"
  else lit "cloudflare_url".

(** Two names are the same up to case when [upper] makes them equal. *)
Definition same_ignoring_case (a b : str) : Prop := upper a = upper b.

Definition is_read_method (method : str) : Prop :=
  Exists (same_ignoring_case method) READ_METHODS.

(** The line logged for every routed request. *)
Definition route_line (request : request) (route_type path : str) : str :=
  lit "[" ++ req_method request ++ lit "] " ++ route_type
  ++ lit ": /" ++ path.

(** The arguments of the upstream call. *)
Definition outbound (request : request) (target_url : str) : requests_args :=
  mk_requests_args (req_method request) target_url
                   (sanitize_request_headers (req_headers request))
                   (req_stream request) (req_cookies request) false true.

(** The response built from the upstream's answer. *)
Definition relay (response_init_error : list (str * str) -> option exn)
           (resp : upstream_response) : result Response :=
  make_Response response_init_error (BodyStream 4096 resp) (status_code resp)
                (filter_response_headers (up_headers resp)).

(** The response made up in the [except] branch. *)
Definition error_response (e : exn) : Response :=
  Response_init (BodyText (lit "Error: " ++ exn_text e)) 502 [].

(** ** Sample data *)

Definition demo_conf : dict value :=
  [ (lit "tailscale_url", VStr (lit "http://a"));
    (lit "cloudflare_url", VStr (lit "http://b/")) ].

Definition demo_get : request :=
  mk_request (lit "GET") (list_byte_of_string "x=1")
             [(lit "Host", lit "127.0.0.1:8888"); (lit "Depth", lit "1")]
             [] [].

Definition demo_put : request :=
  mk_request (lit "PUT") [] [(lit "Host", lit "127.0.0.1:8888")]
             (list_byte_of_string "data") [].

(** A request whose query string is the single byte 0xFF. *)
Definition bad_query_request : request :=
  mk_request (lit "GET") [xff] [] [] [].

Definition upstream_refused (a : requests_args) : result upstream_response :=
  Raised (mk_exn RequestsConnectionError (lit "Connection refused")).

Definition upstream_404 (a : requests_args) : result upstream_response :=
  Ok (mk_upstream 404
        [(lit "Content-Type", lit "text/plain");
         (lit "Content-Length", lit "7"); (lit "Connection", lit "close")]
        [list_byte_of_string "missing"]).

Definition no_init_error (hs : list (str * str)) : option exn := None.

Definition no_decoder (chunk_size : nat) (resp : upstream_response)
  : option (list bytes) := None.

(** The gzip member that holds the seven bytes of "missing". *)
Definition gzip_missing : bytes :=
  [x1f; x8b; x08; x00; x00; x00; x00; x00; x02; x03; xcb; xcd; x2c; x2e;
   xce; xcc; x4b; x07; x00; xd9; x7b; xa0; xf0; x07; x00; x00; x00].

(** An upstream that answers with that member and says so. *)
Definition gzip_answer : upstream_response :=
  mk_upstream 200
    [(lit "Content-Type", lit "text/plain");
     (lit "Content-Encoding", lit "gzip")]
    [gzip_missing].

Definition upstream_gzip (a : requests_args) : result upstream_response :=
  Ok gzip_answer.

(** The client's decoder on the samples: it inflates [gzip_missing]. *)
Definition gunzip_missing (chunk_size : nat) (resp : upstream_response)
  : option (list bytes) :=
  match raw resp with
  | [piece] =>
    if list_eq_dec Byte.byte_eq_dec piece gzip_missing
    then Some [list_byte_of_string "missing"]
    else None
  | _ => None
  end.

(** ** The query string behind werkzeug's server

    The server reads the request line as ISO-8859-1 and hands its query
    part on encoded as UTF-8, so that [request.query_string] is always
    well-formed UTF-8. *)

Definition latin1 (b : bytes) : str := map Byte.to_N b.

Definition wsgi_query (line_query : bytes) : bytes :=
  utf8_encode (latin1 line_query).

(** ** The handler as the specification words it *)

Fixpoint starts_with (prefix s : str) : bool :=
  match prefix, s with
  | [], _ => true
  | _ :: _, [] => false
  | a :: p, b :: r => N.eqb a b && starts_with p r
  end.

(** The response is declared as plain text. *)
Definition is_plain_text (r : Response) : bool :=
  match get_header (lit "content-type") (headers r) with
  | Some v => starts_with (lit "text/plain") v
  | None => false
  end.

(** "The downstream body bytes equal the upstream body bytes." *)
Definition relays_upstream_bytes : Prop :=
  forall rr rie dc gi conf request path resp,
    (exists url rt,
        get_target_url conf request (req_method request) path = Ok (url, rt)
        /\ rr (outbound request url) = Ok resp) ->
    rie (filter_response_headers (up_headers resp)) = None ->
    exists r,
      fst (run (proxy rr rie (Some gi) conf request path)) = Ok r
      /\ List.concat (body_items dc (resp_body r)) = List.concat (raw resp).

(** "A transport error gives a 502 with a plain-text body." *)
Definition error_is_plain_text : Prop :=
  forall rr rie gi conf request path e,
    (exists url rt,
        get_target_url conf request (req_method request) path = Ok (url, rt)
        /\ rr (outbound request url) = Raised e) ->
    is_transport_error e = true ->
    exists r,
      fst (run (proxy rr rie (Some gi) conf request path)) = Ok r
      /\ status r = 502%Z /\ is_plain_text r = true.


(* ================================================================== *)
(** * The shared state and the GUI callbacks

    [app_state.config] and the window's [self.config] are references to
    dictionary objects; [load_config] makes them the same object.  The
    callbacks are sequences of statements, each atomic under the
    interpreter lock, so that they can be interleaved with the request
    threads. *)

Definition loc := nat.
Definition heap := list (dict value).

Definition heap_get (h : heap) (p : loc) : dict value := nth p h [].

Fixpoint heap_set (p : loc) (d : dict value) (h : heap) {struct h} : heap :=
  match h, p with
  | [], _ => []
  | _ :: r, O => d :: r
  | x :: r, S p' => x :: heap_set p' d r
  end.

Record AppState := mk_AppState {
  running : bool;
  config : loc;
  server_thread : option nat }.

(** The fields of the window that the callbacks use; the three text
    variables and the check box hold what the user has entered. *)
Record SmartGatewayGUI := mk_GUI {
  self_config : loc;
  ts_url_var : str;
  cf_url_var : str;
  port_var : str;
  auto_start_var : bool;
  start_btn_enabled : bool }.

Inductive dialog :=
| ShowInfo (title message : str)
| ShowWarning (title message : str)
| ShowError (title message : str).

Record world := mk_world {
  w_heap : heap;
  app_state : AppState;
  gui : SmartGatewayGUI;
  sink : list log_event;
  dialogs : list dialog;
  threads_started : nat }.

(** The dictionary a request thread finds behind [app_state.config]. *)
Definition active_config (w : world) : dict value :=
  heap_get (w_heap w) (config (app_state w)).

(** [app_state = AppState()] before the window exists. *)
Definition initial_world (form : SmartGatewayGUI) : world :=
  mk_world [DEFAULT_CONFIG] (mk_AppState false 0%nat None) form [] [] 0.

(** [load_config]: [file] is [None] when the file is missing or cannot be
    parsed, and the object it holds otherwise. *)
Definition load_config (file : option (dict value)) (w : world) : world :=
  let d := match file with Some d => d | None => DEFAULT_CONFIG end in
  let p := List.length (w_heap w) in
  let g := gui w in
  let a := app_state w in
  mk_world (w_heap w ++ [d])
           (mk_AppState (running a) p (server_thread a))
           (mk_GUI p (ts_url_var g) (cf_url_var g) (port_var g)
                   (auto_start_var g) (start_btn_enabled g))
           (sink w) (dialogs w) (threads_started w).

Inductive stmt :=
| SetSelfConfig (k : str) (v : value)   (* self.config[k] = v *)
| SetAppConfig (k : str) (v : value)    (* app_state.config[k] = v *)
| PublishConfig                         (* app_state.config = self.config *)
| StartThread                           (* Thread(target=run_flask).start() *)
| SetRunning                            (* app_state.running = True *)
| SetServerThread                       (* app_state.server_thread = t *)
| DisableButton                         (* self.start_btn.config(...) *)
| AppendLog (message : str)             (* self.append_log(message) *)
| Dialog (d : dialog).                  (* messagebox.show...(...) *)

Definition store (p : loc) (k : str) (v : value) (w : world) : world :=
  mk_world (heap_set p (dict_set k v (heap_get (w_heap w) p)) (w_heap w))
           (app_state w) (gui w) (sink w) (dialogs w) (threads_started w).

Definition exec_stmt (s : stmt) (w : world) : world :=
  let a := app_state w in
  let g := gui w in
  match s with
  | SetSelfConfig k v => store (self_config g) k v w
  | SetAppConfig k v => store (config a) k v w
  | PublishConfig =>
    mk_world (w_heap w)
             (mk_AppState (running a) (self_config g) (server_thread a))
             g (sink w) (dialogs w) (threads_started w)
  | StartThread =>
    mk_world (w_heap w) a g (sink w) (dialogs w) (S (threads_started w))
  | SetRunning =>
    mk_world (w_heap w) (mk_AppState true (config a) (server_thread a))
             g (sink w) (dialogs w) (threads_started w)
  | SetServerThread =>
    mk_world (w_heap w)
             (mk_AppState (running a) (config a)
                          (Some (pred (threads_started w))))
             g (sink w) (dialogs w) (threads_started w)
  | DisableButton =>
    mk_world (w_heap w) a
             (mk_GUI (self_config g) (ts_url_var g) (cf_url_var g)
                     (port_var g) (auto_start_var g) false)
             (sink w) (dialogs w) (threads_started w)
  | AppendLog m =>
    mk_world (w_heap w) a g (sink w ++ [GuiLog m]) (dialogs w)
             (threads_started w)
  | Dialog d =>
    mk_world (w_heap w) a g (sink w) (dialogs w ++ [d]) (threads_started w)
  end.

Definition exec_stmts (ss : list stmt) (w : world) : world :=
  fold_left (fun w s => exec_stmt s w) ss w.

(** [save_config]; [write_error] is the exception of the file write, if
    any. *)
Definition save_config_stmts (write_error : option exn) (w : world)
  : list stmt :=
  let g := gui w in
  [ SetSelfConfig (lit "tailscale_url") (VStr (ts_url_var g));
    SetSelfConfig (lit "cloudflare_url") (VStr (cf_url_var g));
    SetSelfConfig (lit "local_port") (VStr (port_var g));
    SetSelfConfig (lit "auto_start") (VBool (auto_start_var g));
    PublishConfig;
    Dialog (match write_error with
            | None => ShowInfo (lit "成功") (lit "配置已保存")
            | Some e => ShowError (lit "错误") (lit "保存失败: " ++ exn_text e)
            end) ].

Definition save_config (write_error : option exn) (w : world) : world :=
  exec_stmts (save_config_stmts write_error w) w.

(** [toggle_server]; the last line shows [app_state.config['local_port']],
    which the third statement has just set to the port field. *)
Definition toggle_server_stmts (w : world) : list stmt :=
  let g := gui w in
  if running (app_state w) then
    [ Dialog (ShowWarning (lit "提示")
                (lit "停止服务需要重启应用程序。" ++ [10]
                 ++ lit "请关闭程序后重新打开。")) ]
  else
    [ SetAppConfig (lit "tailscale_url") (VStr (ts_url_var g));
      SetAppConfig (lit "cloudflare_url") (VStr (cf_url_var g));
      SetAppConfig (lit "local_port") (VStr (port_var g));
      StartThread;
      SetRunning;
      SetServerThread;
      DisableButton;
      AppendLog (lit ">>> 服务已启动");
      AppendLog (lit ">>> WebDAV 本地地址: http://127.0.0.1:" ++ port_var g) ].

Definition toggle_server (w : world) : world :=
  exec_stmts (toggle_server_stmts w) w.

(** ** Request threads beside the GUI thread

    A request reads the shared configuration in two steps of
    [get_target_url], [conf = app_state.config] and then one [conf.get];
    nothing after that looks at the configuration. *)

Inductive req_pc :=
| AtEntry
| HasConf (conf : loc)
| HasTarget (r : result (str * str)).

Record in_flight := mk_in_flight {
  fl_request : request;
  fl_path : str;
  fl_pc : req_pc }.

Definition req_step (w : world) (f : in_flight) : in_flight :=
  match fl_pc f with
  | AtEntry =>
    mk_in_flight (fl_request f) (fl_path f) (HasConf (config (app_state w)))
  | HasConf c =>
    mk_in_flight (fl_request f) (fl_path f)
      (HasTarget (get_target_url (heap_get (w_heap w) c) (fl_request f)
                                 (req_method (fl_request f)) (fl_path f)))
  | HasTarget _ => f
  end.

Record sys := mk_sys {
  sys_world : world;
  gui_todo : list stmt;
  flights : list in_flight }.

(** Which thread runs its next statement. *)
Inductive tick :=
| TickGui
| TickReq (i : nat).

Fixpoint update_nth {A} (i : nat) (f : A -> A) (l : list A) {struct l}
  : list A :=
  match l, i with
  | [], _ => []
  | x :: r, O => f x :: r
  | x :: r, S i' => x :: update_nth i' f r
  end.

Definition sys_step (s : sys) (t : tick) : sys :=
  match t with
  | TickGui =>
    match gui_todo s with
    | [] => s
    | st :: rest => mk_sys (exec_stmt st (sys_world s)) rest (flights s)
    end
  | TickReq i =>
    mk_sys (sys_world s) (gui_todo s)
           (update_nth i (req_step (sys_world s)) (flights s))
  end.

Definition sys_run (ts : list tick) (s : sys) : sys := fold_left sys_step ts s.

Definition pc_of (s : sys) (i : nat) : option req_pc :=
  option_map fl_pc (nth_error (flights s) i).

(** ** Sample states *)

(** The form after the user has typed two new upstreams. *)
Definition demo_form : SmartGatewayGUI :=
  mk_GUI 0%nat (lit "http://new-read") (lit "http://new-write") (lit "8888")
         false true.

(** No configuration file: both references share a copy of the defaults. *)
Definition demo_world : world := load_config None (initial_world demo_form).

(** One GET in flight while [save_config] is about to run. *)
Definition demo_sys : sys :=
  mk_sys demo_world (save_config_stmts None demo_world)
         [mk_in_flight demo_get (lit "files/doc.txt") AtEntry].

(** The form left empty. *)
Definition empty_form : SmartGatewayGUI := mk_GUI 0%nat [] [] [] false true.

Definition empty_world : world := load_config None (initial_world empty_form).

(** ** The control plane as the specification words it *)

(** "The server never enters the running state with an empty base URL." *)
Definition start_rejects_empty_url : Prop :=
  forall w,
    running (app_state w) = false ->
    ts_url_var (gui w) = [] \/ cf_url_var (gui w) = [] ->
    running (app_state (toggle_server w)) = false.

(** "A new snapshot is published atomically": while [save_config] runs, the
    active configuration is the old one or the new one. *)
Definition publishes_atomically : Prop :=
  forall write_error w n,
    let mid := exec_stmts (firstn n (save_config_stmts write_error w)) w in
    active_config mid = active_config w
    \/ active_config mid = active_config (save_config write_error w).

(** "A request in flight keeps the snapshot it captured": the target of a
    request that holds the configuration is the one that configuration
    gave when it was captured. *)
Definition uses_captured_snapshot : Prop :=
  forall s ticks i f c r,
    nth_error (flights s) i = Some f ->
    fl_pc f = HasConf c ->
    pc_of (sys_run ticks s) i = Some (HasTarget r) ->
    r = get_target_url (heap_get (w_heap (sys_world s)) c) (fl_request f)
                       (req_method (fl_request f)) (fl_path f).

(** ** Names used by the further properties *)

(** The route label [get_target_url] returns for a method. *)
Definition route_label (method : str) : str :=
  if str_in (upper method) READ_METHODS then lit "READ (Tailscale)"
  else lit "WRITE (Cloudflare)".

(** What follows the path in the target URL, for the decoded query [q]. *)
Definition query_suffix (request : request) (q : str) : str :=
  match req_query_string request with
  | [] => []
  | _ => lit "?" ++ q
  end.

(** The target URL for a configured upstream [u] and the decoded query
    [q]. *)
Definition target_text (u path : str) (request : request) (q : str) : str :=
  rstrip (lit "/") u ++ lit "/" ++ path ++ query_suffix request q.

(** The names of a list, each at the place of its first occurrence. *)
Definition first_occurrences (l : list str) : list str :=
  rev (nodup str_eq_dec (rev l)).

(** The form field that holds the upstream a method is routed to. *)
Definition form_url (g : SmartGatewayGUI) (method : str) : str :=
  if str_in (upper method) READ_METHODS then ts_url_var g else cf_url_var g.

(** Both references denote one dictionary object of the heap. *)
Definition shared_config (w : world) : Prop :=
  self_config (gui w) = config (app_state w)
  /\ (config (app_state w) < List.length (w_heap w))%nat.

(** The dialog of [toggle_server] on a running server. *)
Definition stop_warning : dialog :=
  ShowWarning (lit "提示")
              (lit "停止服务需要重启应用程序。" ++ [10]
               ++ lit "请关闭程序后重新打开。").

(** A configuration file that holds a number where a URL belongs. *)
Definition number_conf : dict value :=
  [ (lit "tailscale_url", VInt 5);
    (lit "cloudflare_url", VStr (lit "http://b")) ].

(** [Flask.run] raising on a port outside the range of ports. *)
Definition port_out_of_range (port : Z) : result unit :=
  Raised (mk_exn (OtherException (lit "OverflowError"))
                 (lit "bind(): port must be 0-65535.")).

(* ================================================================== *)
(** * Properties of text *)

Lemma str_eqb_eq (a b : str) : str_eqb a b = true <-> a = b.
Proof.
  unfold str_eqb. destruct (str_eq_dec a b); split; congruence.
Qed.

Lemma str_eqb_refl (a : str) : str_eqb a a = true.
Proof. now apply str_eqb_eq. Qed.

Lemma str_eqb_neq (a b : str) : str_eqb a b = false <-> a <> b.
Proof.
  unfold str_eqb. destruct (str_eq_dec a b); split; congruence.
Qed.

Lemma str_eqb_sym (a b : str) : str_eqb a b = str_eqb b a.
Proof.
  destruct (str_eqb b a) eqn:E.
  - apply str_eqb_eq in E. subst. apply str_eqb_refl.
  - apply str_eqb_neq in E. apply str_eqb_neq. congruence.
Qed.

Lemma str_in_In (x : str) (xs : list str) : str_in x xs = true <-> In x xs.
Proof.
  unfold str_in. rewrite existsb_exists. split.
  - intros [y [Hy E]]. apply str_eqb_eq in E. now subst.
  - intros H. exists x. split; [assumption | apply str_eqb_refl].
Qed.

Lemma str_in_not_In (x : str) (xs : list str) :
  str_in x xs = false <-> ~ In x xs.
Proof.
  rewrite <- str_in_In. destruct (str_in x xs); split; congruence.
Qed.

(** ** UTF-8: decoding loses nothing *)

Lemma byte_of_to_N (b : byte) : byte_of_N (Byte.to_N b) = b.
Proof. unfold byte_of_N. now rewrite Byte.of_to_N. Qed.

Ltac split_bools :=
  repeat match goal with
         | H : _ && _ = true |- _ => apply andb_true_iff in H; destruct H
         | H : (_ <=? _) = true |- _ => apply N.leb_le in H
         | H : (_ <? _) = true |- _ => apply N.ltb_lt in H
         | H : (_ <? _) = false |- _ => apply N.ltb_ge in H
         | H : (_ =? _) = true |- _ => apply N.eqb_eq in H
         | H : (_ =? _) = false |- _ => apply N.eqb_neq in H
         end.

Ltac decide_ltb :=
  repeat match goal with
         | |- context [?a <? ?b] =>
           let E := fresh "E" in
           destruct (a <? b) eqn:E; split_bools; try lia
         end.

Lemma encode_two (n0 n1 : N) :
  0xC2 <= n0 -> n0 <= 0xDF -> is_cont n1 = true ->
  utf8_encode_char ((n0 - 0xC0) * 64 + (n1 - 0x80))
  = [byte_of_N n0; byte_of_N n1].
Proof.
  unfold is_cont, utf8_encode_char. intros. split_bools. decide_ltb.
  repeat f_equal; lia.
Qed.

Lemma encode_three (n0 n1 n2 : N) :
  0xE0 <= n0 -> n0 <= 0xEF ->
  second_of_three n0 n1 = true -> is_cont n2 = true ->
  utf8_encode_char ((n0 - 0xE0) * 4096 + (n1 - 0x80) * 64 + (n2 - 0x80))
  = [byte_of_N n0; byte_of_N n1; byte_of_N n2].
Proof.
  unfold second_of_three, is_cont, utf8_encode_char. intros H0 H1 H2 H3.
  destruct (n0 =? 0xE0) eqn:Ea; [| destruct (n0 =? 0xED) eqn:Eb];
    split_bools; decide_ltb; repeat f_equal; lia.
Qed.

Lemma encode_four (n0 n1 n2 n3 : N) :
  0xF0 <= n0 -> n0 <= 0xF4 ->
  second_of_four n0 n1 = true -> is_cont n2 = true -> is_cont n3 = true ->
  utf8_encode_char ((n0 - 0xF0) * 262144 + (n1 - 0x80) * 4096
                    + (n2 - 0x80) * 64 + (n3 - 0x80))
  = [byte_of_N n0; byte_of_N n1; byte_of_N n2; byte_of_N n3].
Proof.
  unfold second_of_four, is_cont, utf8_encode_char. intros H0 H1 H2 H3 H4.
  destruct (n0 =? 0xF0) eqn:Ea; [| destruct (n0 =? 0xF4) eqn:Eb];
    split_bools; decide_ltb; repeat f_equal; lia.
Qed.

Ltac decoded_tail H IH :=
  match type of H with
  | option_map _ (utf8_decode ?r) = Some _ =>
    let E := fresh "E" in
    destruct (utf8_decode r) eqn:E; [| discriminate H];
    injection H as <-; apply IH in E; [| simpl in *; lia]
  end.

Lemma utf8_encode_decode_bounded (n : nat) :
  forall (bs : bytes) (s : str),
    (List.length bs <= n)%nat -> utf8_decode bs = Some s -> utf8_encode s = bs.
Proof.
  induction n as [| n IH]; intros bs s Hlen H.
  - destruct bs; [| simpl in Hlen; lia]. now injection H as <-.
  - destruct bs as [| b0 r0]; [now injection H as <- |].
    cbn [utf8_decode] in H. cbv zeta in H.
    destruct (Byte.to_N b0 <? 0x80) eqn:E0.
    { decoded_tail H IH. unfold utf8_encode in *. cbn [flat_map].
      rewrite E. unfold utf8_encode_char. rewrite E0, byte_of_to_N.
      reflexivity. }
    destruct r0 as [| b1 r1]; [discriminate |].
    destruct ((0xC2 <=? Byte.to_N b0) && (Byte.to_N b0 <=? 0xDF)) eqn:E1.
    { destruct (is_cont (Byte.to_N b1)) eqn:C1; [| discriminate].
      decoded_tail H IH. unfold utf8_encode in *. cbn [flat_map].
      split_bools. rewrite encode_two, E, !byte_of_to_N by assumption.
      reflexivity. }
    destruct r1 as [| b2 r2]; [discriminate |].
    destruct ((0xE0 <=? Byte.to_N b0) && (Byte.to_N b0 <=? 0xEF)) eqn:E2.
    { destruct (second_of_three (Byte.to_N b0) (Byte.to_N b1)
                && is_cont (Byte.to_N b2)) eqn:C2; [| discriminate].
      decoded_tail H IH. unfold utf8_encode in *. cbn [flat_map].
      split_bools. rewrite encode_three, E, !byte_of_to_N by assumption.
      reflexivity. }
    destruct r2 as [| b3 r3]; [discriminate |].
    destruct ((0xF0 <=? Byte.to_N b0) && (Byte.to_N b0 <=? 0xF4)) eqn:E3;
      [| discriminate].
    destruct (second_of_four (Byte.to_N b0) (Byte.to_N b1)
              && is_cont (Byte.to_N b2) && is_cont (Byte.to_N b3)) eqn:C3;
      [| discriminate].
    decoded_tail H IH. unfold utf8_encode in *. cbn [flat_map].
    split_bools. rewrite encode_four, E, !byte_of_to_N by assumption.
    reflexivity.
Qed.

Lemma utf8_encode_decode (bs : bytes) (s : str) :
  utf8_decode bs = Some s -> utf8_encode s = bs.
Proof. apply (utf8_encode_decode_bounded (List.length bs)). lia. Qed.

(** ** Stripping *)

Lemma rstrip_split (chars s : str) :
  exists t, s = rstrip chars s ++ t
            /\ Forall (fun x => existsb (N.eqb x) chars = true) t.
Proof.
  induction s as [| x r [t [Hs Ht]]].
  - exists []. split; [reflexivity | constructor].
  - simpl. destruct (rstrip chars r) as [| y r'] eqn:E.
    + destruct (existsb (N.eqb x) chars) eqn:Ex.
      * exists (x :: r). split; [reflexivity |].
        simpl in Hs. subst t. now constructor.
      * exists t. split; [| assumption]. simpl in *. now f_equal.
    + exists t. split; [| assumption]. simpl in *. now f_equal.
Qed.

Lemma rstrip_no_trailing (chars s p : str) (x : char) :
  rstrip chars s = p ++ [x] -> existsb (N.eqb x) chars = false.
Proof.
  revert p. induction s as [| y r IH]; intros p H.
  - now destruct p.
  - simpl in H. destruct (rstrip chars r) as [| z r'] eqn:E.
    + destruct (existsb (N.eqb y) chars) eqn:Ey.
      * now destruct p.
      * destruct p as [| ? [| ? ?]]; try discriminate.
        injection H as ->. assumption.
    + destruct p as [| y' p'].
      * discriminate.
      * injection H as _ H. now apply (IH p').
Qed.

Lemma rstrip_slash_split (s : str) :
  exists k, s = rstrip (lit "/") s ++ repeat 47 k.
Proof.
  destruct (rstrip_split (lit "/") s) as [t [Hs Ht]].
  exists (List.length t). rewrite Hs at 1. f_equal.
  clear Hs. induction Ht as [| x t Hx _ IH]; [reflexivity |].
  simpl. f_equal; [| assumption].
  change (lit "/") with [47] in Hx. simpl in Hx.
  rewrite orb_false_r in Hx. now apply N.eqb_eq in Hx.
Qed.

Lemma rstrip_fixed (chars s : str) :
  (forall p x, s = p ++ [x] -> existsb (N.eqb x) chars = false) ->
  rstrip chars s = s.
Proof.
  intros H. destruct (rstrip_split chars s) as [t [Hs Ht]].
  destruct t as [| y t0]; [now rewrite app_nil_r in Hs |].
  destruct (@exists_last _ (y :: t0)) as [t' [x E]]; [discriminate |].
  rewrite E in Hs, Ht. rewrite app_assoc in Hs. apply H in Hs.
  apply Forall_app in Ht. destruct Ht as [_ Ht].
  apply Forall_inv in Ht. congruence.
Qed.

(* ================================================================== *)
(** * Properties of dictionaries *)

Section DictFacts.
Context {V : Type}.
Implicit Types (d : dict V) (k : str) (v : V).

Lemma dict_get_set k k' v d :
  dict_get k (dict_set k' v d)
  = if str_eqb k' k then Some v else dict_get k d.
Proof.
  induction d as [| [k0 v0] r IH]; simpl.
  - reflexivity.
  - destruct (str_eqb k0 k') eqn:E0; simpl.
    + apply str_eqb_eq in E0. subst k0.
      now destruct (str_eqb k' k).
    + destruct (str_eqb k0 k) eqn:E1; [| exact IH].
      apply str_eqb_eq in E1. subst k0. now rewrite str_eqb_sym, E0.
Qed.

Lemma dict_get_app k (a b : dict V) :
  dict_get k (a ++ b)
  = match dict_get k a with Some v => Some v | None => dict_get k b end.
Proof.
  induction a as [| [k0 v0] r IH]; simpl; [reflexivity |].
  now destruct (str_eqb k0 k).
Qed.

Lemma dict_get_None k d : dict_get k d = None <-> ~ In k (dict_keys d).
Proof.
  induction d as [| [k0 v0] r IH]; simpl.
  - tauto.
  - destruct (str_eqb k0 k) eqn:E.
    + apply str_eqb_eq in E. split; [discriminate | tauto].
    + apply str_eqb_neq in E. tauto.
Qed.

Lemma dict_get_In k v d : dict_get k d = Some v -> In (k, v) d.
Proof.
  induction d as [| [k0 v0] r IH]; simpl; [discriminate |].
  destruct (str_eqb k0 k) eqn:E.
  - apply str_eqb_eq in E. intros [= ->]. subst. now left.
  - intros H. right. now apply IH.
Qed.

Lemma dict_set_fresh k v d :
  dict_get k d = None -> dict_set k v d = d ++ [(k, v)].
Proof.
  induction d as [| [k0 v0] r IH]; simpl; [reflexivity |].
  destruct (str_eqb k0 k); [discriminate |].
  intros H. now rewrite IH.
Qed.

Lemma dict_keys_set k v d :
  dict_keys (dict_set k v d)
  = if dict_contains k d then dict_keys d else dict_keys d ++ [k].
Proof.
  unfold dict_contains.
  induction d as [| [k0 v0] r IH]; simpl; [reflexivity |].
  destruct (str_eqb k0 k) eqn:E; simpl; [reflexivity |].
  rewrite IH. now destruct (dict_get k r).
Qed.

Lemma last_value_cons k k' v (kvs : list (str * V)) :
  last_value k ((k', v) :: kvs)
  = match last_value k kvs with
    | Some x => Some x
    | None => if str_eqb k' k then Some v else None
    end.
Proof. unfold last_value. simpl. now rewrite dict_get_app. Qed.
End DictFacts.

(* ================================================================== *)
(** * Header sanitization *)

Lemma keep_request_header_false (k : str) :
  keep_request_header k = false
  <-> In (lower k) HOP_BY_HOP_HEADERS \/ lower k = lit "host".
Proof.
  unfold keep_request_header.
  rewrite andb_false_iff, !negb_false_iff, str_in_In, str_eqb_eq. tauto.
Qed.

Lemma keep_request_header_true (k : str) :
  keep_request_header k = true
  <-> ~ In (lower k) HOP_BY_HOP_HEADERS /\ lower k <> lit "host".
Proof.
  unfold keep_request_header.
  rewrite andb_true_iff, !negb_true_iff, str_in_not_In, str_eqb_neq. tauto.
Qed.

Lemma NoDup_snoc {A} (l : list A) (x : A) :
  NoDup l -> ~ In x l -> NoDup (l ++ [x]).
Proof.
  intros Hl Hx. apply NoDup_rev in Hl. rewrite <- (rev_involutive (l ++ [x])).
  apply NoDup_rev. rewrite rev_app_distr. simpl. constructor; [| assumption].
  now rewrite <- in_rev.
Qed.

Lemma filter_all {A} (f : A -> bool) (l : list A) :
  Forall (fun x => f x = true) l -> filter f l = l.
Proof.
  induction 1 as [| x l Hx _ IH]; simpl; [reflexivity |].
  now rewrite Hx, IH.
Qed.

(** The loop seen from one key: the last kept assignment wins. *)
Lemma clean_loop_get (hs : list (str * str)) :
  forall (acc : dict str) (k : str),
    dict_get k (fold_left clean_headers_body hs acc)
    = if keep_request_header k
      then match last_value k hs with
           | Some v => Some v
           | None => dict_get k acc
           end
      else dict_get k acc.
Proof.
  induction hs as [| [k' v'] r IH]; intros acc k; simpl.
  - unfold last_value. simpl. now destruct (keep_request_header k).
  - rewrite IH, last_value_cons.
    destruct (keep_request_header k) eqn:Kk.
    + destruct (last_value k r); [reflexivity |].
      destruct (str_eqb k' k) eqn:E.
      * apply str_eqb_eq in E. subst k'. rewrite Kk, dict_get_set.
        now rewrite str_eqb_refl.
      * destruct (keep_request_header k'); [| reflexivity].
        now rewrite dict_get_set, E.
    + destruct (keep_request_header k') eqn:Kk'; [| reflexivity].
      rewrite dict_get_set.
      destruct (str_eqb k' k) eqn:E; [| reflexivity].
      apply str_eqb_eq in E. congruence.
Qed.

(** The loop keeps the keys distinct and lets no excluded name in. *)
Lemma clean_loop_keys (hs : list (str * str)) :
  forall acc : dict str,
    NoDup (dict_keys acc) ->
    Forall (fun k => keep_request_header k = true) (dict_keys acc) ->
    NoDup (dict_keys (fold_left clean_headers_body hs acc))
    /\ Forall (fun k => keep_request_header k = true)
              (dict_keys (fold_left clean_headers_body hs acc)).
Proof.
  induction hs as [| [k v] r IH]; intros acc Hnd Hk; simpl; [now split |].
  apply IH; destruct (keep_request_header k) eqn:Kk; try assumption;
    rewrite dict_keys_set; unfold dict_contains;
    destruct (dict_get k acc) eqn:G; try assumption.
  - apply NoDup_snoc; [assumption | now apply dict_get_None].
  - apply Forall_app. split; [assumption | now constructor].
Qed.

(** On distinct names the loop is a filter that keeps the order. *)
Lemma clean_loop_distinct (hs : list (str * str)) :
  forall acc : dict str,
    NoDup (map fst hs) ->
    (forall k, In k (map fst hs) -> dict_get k acc = None) ->
    fold_left clean_headers_body hs acc
    = acc ++ filter (fun kv => keep_request_header (fst kv)) hs.
Proof.
  induction hs as [| [k v] r IH]; intros acc Hnd Hacc; simpl.
  - now rewrite app_nil_r.
  - inversion Hnd as [| ? ? Hk Hr]; subst.
    destruct (keep_request_header k) eqn:Kk.
    + rewrite dict_set_fresh by (apply Hacc; now left).
      rewrite IH; [now rewrite <- app_assoc | assumption |].
      intros k' Hk'. rewrite dict_get_app, Hacc by (now right). simpl.
      destruct (str_eqb k k') eqn:E; [| reflexivity].
      apply str_eqb_eq in E. subst. contradiction.
    + apply IH; [assumption |]. intros k' Hk'. apply Hacc. now right.
Qed.

Lemma clean_headers_fixed (d : dict str) :
  NoDup (dict_keys d) ->
  Forall (fun k => keep_request_header k = true) (dict_keys d) ->
  clean_headers (dict_items d) = d.
Proof.
  intros Hnd Hk. unfold clean_headers, dict_items.
  rewrite clean_loop_distinct; [| assumption | reflexivity]. simpl.
  apply filter_all. unfold dict_keys in Hk. now rewrite Forall_map in Hk.
Qed.

Lemma clean_headers_keys (hs : list (str * str)) :
  NoDup (dict_keys (clean_headers hs))
  /\ Forall (fun k => keep_request_header k = true)
            (dict_keys (clean_headers hs)).
Proof. apply clean_loop_keys; constructor. Qed.

Lemma clean_headers_get (hs : list (str * str)) (k : str) :
  dict_get k (clean_headers hs)
  = if keep_request_header k then last_value k hs else None.
Proof.
  unfold clean_headers. rewrite clean_loop_get. simpl.
  destruct (keep_request_header k); [| reflexivity].
  now destruct (last_value k hs).
Qed.

Lemma add_user_agent_eq (d : dict str) :
  add_user_agent d
  = if dict_contains (lit "User-Agent") d then d
    else d ++ [(lit "User-Agent", lit "SmartWebDAVProxy/2.0")].
Proof.
  unfold add_user_agent, dict_contains.
  destruct (dict_get (lit "User-Agent") d) eqn:G; simpl; [reflexivity |].
  now apply dict_set_fresh.
Qed.

Lemma add_user_agent_keys (d : dict str) :
  NoDup (dict_keys d) ->
  Forall (fun k => keep_request_header k = true) (dict_keys d) ->
  NoDup (dict_keys (add_user_agent d))
  /\ Forall (fun k => keep_request_header k = true)
            (dict_keys (add_user_agent d))
  /\ dict_contains (lit "User-Agent") (add_user_agent d) = true.
Proof.
  intros Hnd Hk. rewrite add_user_agent_eq. unfold dict_contains.
  destruct (dict_get (lit "User-Agent") d) eqn:G.
  - rewrite G. now repeat split.
  - unfold dict_keys. rewrite map_app, dict_get_app, G. simpl.
    repeat split.
    + apply NoDup_snoc; [assumption | now apply dict_get_None].
    + apply Forall_app. split; [assumption |]. now constructor.
Qed.

Lemma kept_not_hop_by_hop (d : dict str) :
  Forall (fun k => keep_request_header k = true) (dict_keys d) ->
  Forall (fun kv => ~ In (lower (fst kv)) HOP_BY_HOP_HEADERS) d.
Proof.
  unfold dict_keys. rewrite Forall_map. apply Forall_impl.
  intros kv H. now apply keep_request_header_true in H.
Qed.

Lemma excluded_headers_cover (n : str) :
  str_in n excluded_headers = false ->
  ~ In n HOP_BY_HOP_HEADERS
  /\ n <> lit "content-encoding" /\ n <> lit "content-length".
Proof.
  intros H. apply str_in_not_In in H. unfold excluded_headers in H.
  repeat split; intros E; apply H; apply in_or_app.
  - now left.
  - right. subst n. now left.
  - right. subst n. right. now left.
Qed.

Lemma filter_response_headers_clean (hs : list (str * str)) :
  Forall (fun kv => ~ In (lower (fst kv)) HOP_BY_HOP_HEADERS
                    /\ lower (fst kv) <> lit "content-encoding"
                    /\ lower (fst kv) <> lit "content-length")
         (filter_response_headers hs).
Proof.
  apply Forall_forall. intros [n v] H. unfold filter_response_headers in H.
  apply filter_In in H. destruct H as [_ H]. apply negb_true_iff in H.
  now apply excluded_headers_cover.
Qed.

Lemma filter_response_headers_twice (hs : list (str * str)) :
  filter_response_headers (filter_response_headers hs)
  = filter_response_headers hs.
Proof.
  unfold filter_response_headers. apply filter_all. apply Forall_forall.
  intros x H. now apply filter_In in H.
Qed.

(** C4.  Request-side sanitization.  A name is dropped exactly when its
    lower-case form is one of the eight hop-by-hop names or [host]; every
    other name keeps the value the inbound headers give it (the last one
    when a name is repeated), and inbound headers with distinct names come
    out as they went in, in order, without the dropped ones; the fixed
    [User-Agent] is appended exactly when the cleaned mapping has no
    [User-Agent] key. *)
Theorem request_sanitization (hs : list (str * str)) :
  (forall k, keep_request_header k = false
             <-> In (lower k) HOP_BY_HOP_HEADERS \/ lower k = lit "host")
  /\ (forall k, dict_get k (clean_headers hs)
                = if keep_request_header k then last_value k hs else None)
  /\ (NoDup (map fst hs) ->
      clean_headers hs = filter (fun kv => keep_request_header (fst kv)) hs)
  /\ sanitize_request_headers hs
     = if dict_contains (lit "User-Agent") (clean_headers hs)
       then clean_headers hs
       else clean_headers hs
            ++ [(lit "User-Agent", lit "SmartWebDAVProxy/2.0")].
Proof.
  split; [exact keep_request_header_false |].
  split; [exact (clean_headers_get hs) |].
  split; [| apply add_user_agent_eq].
  intros Hnd. unfold clean_headers.
  now rewrite clean_loop_distinct.
Qed.

Lemma request_sanitization_witness :
  sanitize_request_headers
    [(lit "Host", lit "127.0.0.1:8888"); (lit "Connection", lit "close");
     (lit "Depth", lit "1"); (lit "TE", lit "trailers")]
  = [(lit "Depth", lit "1"); (lit "User-Agent", lit "SmartWebDAVProxy/2.0")].
Proof.
  destruct (request_sanitization
              [(lit "Host", lit "127.0.0.1:8888");
               (lit "Connection", lit "close");
               (lit "Depth", lit "1"); (lit "TE", lit "trailers")])
    as [_ [_ [Hfilter Hua]]].
  rewrite Hua, Hfilter.
  - reflexivity.
  - vm_compute. repeat constructor; simpl; intuition discriminate.
Defined.

(** C5.  Both sanitizers are idempotent, and neither output contains a
    header whose lower-case name is in the hop-by-hop set.  The request
    side is stated for [clean_headers] alone and together with the
    [User-Agent] default. *)
Theorem sanitizers_idempotent (hs : list (str * str)) :
  clean_headers (dict_items (clean_headers hs)) = clean_headers hs
  /\ sanitize_request_headers (dict_items (sanitize_request_headers hs))
     = sanitize_request_headers hs
  /\ filter_response_headers (filter_response_headers hs)
     = filter_response_headers hs
  /\ Forall (fun kv => ~ In (lower (fst kv)) HOP_BY_HOP_HEADERS)
            (clean_headers hs)
  /\ Forall (fun kv => ~ In (lower (fst kv)) HOP_BY_HOP_HEADERS)
            (sanitize_request_headers hs)
  /\ Forall (fun kv => ~ In (lower (fst kv)) HOP_BY_HOP_HEADERS)
            (filter_response_headers hs).
Proof.
  destruct (clean_headers_keys hs) as [Hnd Hk].
  destruct (add_user_agent_keys _ Hnd Hk) as [Hnd' [Hk' Hua]].
  repeat split.
  - now apply clean_headers_fixed.
  - unfold sanitize_request_headers at 1.
    rewrite clean_headers_fixed by assumption.
    unfold sanitize_request_headers in *.
    unfold add_user_agent at 1. now rewrite Hua.
  - apply filter_response_headers_twice.
  - now apply kept_not_hop_by_hop.
  - now apply kept_not_hop_by_hop.
  - eapply Forall_impl; [| apply filter_response_headers_clean].
    intros kv H. apply H.
Qed.

(** C9.  The cleaned request headers hold each name once, and the value
    under a kept name is the one of its last occurrence inbound: of
    repeated occurrences only the last survives. *)
Theorem clean_headers_last_wins (hs : list (str * str)) :
  NoDup (dict_keys (clean_headers hs))
  /\ (forall k v, In (k, v) (clean_headers hs) ->
                  keep_request_header k = true /\ last_value k hs = Some v)
  /\ (forall k v, keep_request_header k = true -> last_value k hs = Some v ->
                  In (k, v) (clean_headers hs)).
Proof.
  destruct (clean_headers_keys hs) as [Hnd Hk].
  split; [assumption |]. split.
  - intros k v Hin.
    assert (G : dict_get k (clean_headers hs) = Some v).
    { clear Hk. induction (clean_headers hs) as [| [k0 v0] r IH];
        [contradiction |].
      simpl in *. inversion Hnd as [| ? ? Hk0 Hr]; subst.
      destruct Hin as [[= -> ->] | Hin].
      - now rewrite str_eqb_refl.
      - destruct (str_eqb k0 k) eqn:E; [| now apply IH].
        apply str_eqb_eq in E. subst k0. exfalso. apply Hk0.
        change k with (fst (k, v)). now apply in_map. }
    rewrite clean_headers_get in G.
    destruct (keep_request_header k); [now split | discriminate].
  - intros k v Kk Hl. apply dict_get_In.
    now rewrite clean_headers_get, Kk.
Qed.

Lemma clean_headers_last_wins_witness :
  In (lit "X-Tag", lit "second")
     (clean_headers [(lit "X-Tag", lit "first"); (lit "Depth", lit "0");
                     (lit "X-Tag", lit "second")])
  /\ ~ In (lit "X-Tag", lit "first")
          (clean_headers [(lit "X-Tag", lit "first"); (lit "Depth", lit "0");
                          (lit "X-Tag", lit "second")]).
Proof.
  destruct (clean_headers_last_wins
              [(lit "X-Tag", lit "first"); (lit "Depth", lit "0");
               (lit "X-Tag", lit "second")]) as [_ [Hout Hin]].
  split.
  - apply Hin; reflexivity.
  - intros H. apply Hout in H. destruct H as [_ H]. vm_compute in H.
    discriminate.
Defined.

(* ================================================================== *)
(** * The classifier *)

Lemma is_read_method_upper (method : str) :
  is_read_method method <-> In (upper method) READ_METHODS.
Proof.
  unfold is_read_method, same_ignoring_case. rewrite Exists_exists. split.
  - intros [m [Hm E]]. rewrite E.
    repeat (destruct Hm as [<- | Hm]; [vm_compute; tauto |]). destruct Hm.
  - intros H. exists (upper method). split; [assumption |].
    repeat (destruct H as [<- | H]; [reflexivity |]). destruct H.
Qed.

Lemma route_base_read (conf : dict value) (method ts : str) :
  conf_get conf (lit "tailscale_url") (VStr []) = VStr ts ->
  In (upper method) READ_METHODS ->
  route_base conf method = Ok (rstrip (lit "/") ts, lit "READ (Tailscale)").
Proof.
  intros Hts H. apply str_in_In in H. unfold route_base.
  now rewrite H, Hts.
Qed.

Lemma route_base_write (conf : dict value) (method cf : str) :
  conf_get conf (lit "cloudflare_url") (VStr []) = VStr cf ->
  ~ In (upper method) READ_METHODS ->
  route_base conf method = Ok (rstrip (lit "/") cf, lit "WRITE (Cloudflare)").
Proof.
  intros Hcf H. apply str_in_not_In in H. unfold route_base.
  now rewrite H, Hcf.
Qed.

Lemma rstrip_slash_fixed (u : str) :
  (forall p, u <> p ++ lit "/") -> rstrip (lit "/") u = u.
Proof.
  intros H. apply rstrip_fixed. intros p x E.
  change (lit "/") with [47]. simpl. rewrite orb_false_r.
  apply N.eqb_neq. intros ->. now apply (H p).
Qed.

(** C1.  The base is chosen by the method alone: a method that is GET, HEAD,
    OPTIONS or PROPFIND up to case gets the read upstream [tailscale_url],
    every other method the write upstream [cloudflare_url]; the base is the
    configured URL with its trailing slashes stripped, hence the configured
    URL itself when that one does not end in a slash. *)
Theorem route_base_by_method (conf : dict value) (method ts cf : str) :
  conf_get conf (lit "tailscale_url") (VStr []) = VStr ts ->
  conf_get conf (lit "cloudflare_url") (VStr []) = VStr cf ->
  (is_read_method method ->
   route_base conf method = Ok (rstrip (lit "/") ts, lit "READ (Tailscale)")
   /\ ((forall p, ts <> p ++ lit "/") ->
       route_base conf method = Ok (ts, lit "READ (Tailscale)")))
  /\ (~ is_read_method method ->
      route_base conf method
      = Ok (rstrip (lit "/") cf, lit "WRITE (Cloudflare)")
      /\ ((forall p, cf <> p ++ lit "/") ->
          route_base conf method = Ok (cf, lit "WRITE (Cloudflare)"))).
Proof.
  intros Hts Hcf. rewrite is_read_method_upper. split; intros H.
  - rewrite (route_base_read conf method ts Hts H).
    split; [reflexivity |]. intros Hn. now rewrite rstrip_slash_fixed.
  - rewrite (route_base_write conf method cf Hcf H).
    split; [reflexivity |]. intros Hn. now rewrite rstrip_slash_fixed.
Qed.

Lemma route_base_by_method_witness :
  route_base demo_conf (lit "propfind")
  = Ok (lit "http://a", lit "READ (Tailscale)")
  /\ route_base demo_conf (lit "MKCOL")
     = Ok (lit "http://b", lit "WRITE (Cloudflare)").
Proof.
  split.
  - apply (route_base_by_method demo_conf (lit "propfind")
             (lit "http://a") (lit "http://b/") eq_refl eq_refl).
    + apply Exists_cons_tl, Exists_cons_tl, Exists_cons_tl, Exists_cons_hd.
      reflexivity.
    + intros p E. apply (f_equal (@rev char)) in E.
      rewrite rev_app_distr in E. discriminate E.
  - apply (route_base_by_method demo_conf (lit "MKCOL")
             (lit "http://a") (lit "http://b/") eq_refl eq_refl).
    intros H. apply is_read_method_upper in H. vm_compute in H.
    intuition discriminate.
Defined.

Lemma get_target_url_text (conf : dict value) (request : request)
      (method path u q : str) :
  conf_get conf (route_key method) (VStr []) = VStr u ->
  utf8_decode (req_query_string request) = Some q ->
  get_target_url conf request method path
  = Ok (rstrip (lit "/") u ++ lit "/" ++ path ++ query_suffix request q,
        route_label method).
Proof.
  intros Hu Hq. unfold get_target_url, route_base, route_key, route_label,
                  query_suffix in *.
  destruct (str_in (upper method) READ_METHODS); rewrite Hu; cbn [bindR value_rstrip];
    destruct (req_query_string request) as [| b r] eqn:Eq;
    try (now rewrite app_nil_r);
    unfold decode; rewrite Hq; cbn [bindR]; now rewrite <- !app_assoc.
Qed.

(** ** Query strings behind the server decode *)

Lemma to_N_byte_of_N (n : N) : n < 256 -> Byte.to_N (byte_of_N n) = n.
Proof.
  intros Hn. unfold byte_of_N. destruct (Byte.of_N n) as [b |] eqn:E.
  - now apply Byte.to_of_N.
  - apply Byte.of_N_None_iff in E. lia.
Qed.

Lemma utf8_decode_encode_char (c : char) (rest : bytes) :
  c < 256 ->
  utf8_decode (utf8_encode_char c ++ rest)
  = option_map (cons c) (utf8_decode rest).
Proof.
  intros Hc. unfold utf8_encode_char. destruct (c <? 0x80) eqn:E0.
  - cbn [app utf8_decode]. cbv zeta.
    rewrite to_N_byte_of_N by assumption. now rewrite E0.
  - apply N.ltb_ge in E0.
    assert (E1 : (c <? 0x800) = true) by (apply N.ltb_lt; lia).
    rewrite E1. cbn [app utf8_decode]. cbv zeta.
    rewrite !to_N_byte_of_N by lia.
    assert (T0 : (0xC0 + c / 64 <? 0x80) = false) by (apply N.ltb_ge; lia).
    assert (T1 : ((0xC2 <=? 0xC0 + c / 64) && (0xC0 + c / 64 <=? 0xDF))
                 = true).
    { apply andb_true_iff. split; apply N.leb_le; lia. }
    assert (T2 : is_cont (0x80 + c mod 64) = true).
    { unfold is_cont. apply andb_true_iff. split; apply N.leb_le; lia. }
    rewrite T0, T1, T2.
    replace ((0xC0 + c / 64 - 0xC0) * 64 + (0x80 + c mod 64 - 0x80)) with c
      by lia.
    reflexivity.
Qed.

(** Whatever bytes the request line carries, the query string the server
    hands to the handler is the UTF-8 encoding of their ISO-8859-1 reading,
    so that decoding it succeeds. *)
Lemma wsgi_query_decodes (line_query : bytes) :
  utf8_decode (wsgi_query line_query) = Some (latin1 line_query).
Proof.
  unfold wsgi_query, latin1, utf8_encode.
  induction line_query as [| b r IH]; [reflexivity |].
  cbn [map flat_map]. rewrite utf8_decode_encode_char, IH; [reflexivity |].
  pose proof (Byte.to_N_bounded b). lia.
Qed.

(** With such a query string the classifier returns a target for every
    configuration whose routed entry is text. *)
Lemma get_target_url_behind_server (conf : dict value) (request : request)
      (method path u : str) (line_query : bytes) :
  conf_get conf (route_key method) (VStr []) = VStr u ->
  req_query_string request = wsgi_query line_query ->
  get_target_url conf request method path
  = Ok (target_text u path request (latin1 line_query), route_label method).
Proof.
  intros Hu Hq. apply get_target_url_text; [assumption |].
  rewrite Hq. apply wsgi_query_decodes.
Qed.

(** C2.  For every configured base, path and raw query string that is
    well-formed UTF-8, which every query string is that the server hands to
    the handler ([wsgi_query_decodes]), the target URL is the base
    with its trailing slashes removed, a slash and the path, followed, when
    the query is not empty, by a question mark and the decoded query, whose
    UTF-8 bytes are the raw query unchanged. *)
Theorem target_url_shape (conf : dict value) (request : request)
        (method path u q : str) :
  conf_get conf (route_key method) (VStr []) = VStr u ->
  utf8_decode (req_query_string request) = Some q ->
  exists base k route_type,
    u = base ++ repeat 47 k
    /\ (forall p, base <> p ++ lit "/")
    /\ get_target_url conf request method path
       = Ok (base ++ lit "/" ++ path
             ++ match req_query_string request with
                | [] => []
                | _ => lit "?" ++ q
                end,
             route_type)
    /\ utf8_encode q = req_query_string request.
Proof.
  intros Hu Hq. destruct (rstrip_slash_split u) as [k Hk].
  assert (Hroute : exists rt,
             route_base conf method = Ok (rstrip (lit "/") u, rt)).
  { unfold route_base, route_key in *.
    destruct (str_in (upper method) READ_METHODS); rewrite Hu; simpl; eauto. }
  destruct Hroute as [rt Hroute].
  exists (rstrip (lit "/") u), k, rt. repeat split.
  - exact Hk.
  - intros p E. apply rstrip_no_trailing in E. discriminate E.
  - unfold get_target_url. rewrite Hroute. cbn [bindR].
    destruct (req_query_string request) as [| b r] eqn:Eq.
    + now rewrite app_nil_r.
    + unfold decode. rewrite Hq. cbn [bindR]. now rewrite <- !app_assoc.
  - now apply utf8_encode_decode.
Qed.

Lemma target_url_shape_witness :
  exists base k route_type,
    lit "http://b/" = base ++ repeat 47 k
    /\ (forall p, base <> p ++ lit "/")
    /\ get_target_url demo_conf demo_get (lit "put") (lit "files/doc.txt")
       = Ok (base ++ lit "/" ++ lit "files/doc.txt"
             ++ match req_query_string demo_get with
                | [] => []
                | _ => lit "?" ++ lit "x=1"
                end,
             route_type)
    /\ utf8_encode (lit "x=1") = req_query_string demo_get.
Proof.
  exact (target_url_shape demo_conf demo_get (lit "put")
           (lit "files/doc.txt") (lit "http://b/") (lit "x=1")
           eq_refl eq_refl).
Defined.

Example target_url_get :
  get_target_url demo_conf demo_get (lit "GET") (lit "files/doc.txt")
  = Ok (lit "http://a/files/doc.txt?x=1", lit "READ (Tailscale)").
Proof. reflexivity. Qed.

Example target_url_put :
  get_target_url demo_conf demo_put (lit "PUT") (lit "files/doc.txt")
  = Ok (lit "http://b/files/doc.txt", lit "WRITE (Cloudflare)").
Proof. reflexivity. Qed.

Example target_url_propfind_root :
  get_target_url demo_conf demo_put (lit "PROPFIND") []
  = Ok (lit "http://a/", lit "READ (Tailscale)").
Proof. reflexivity. Qed.

(* ================================================================== *)
(** * Streaming *)

Lemma chunks_fuel_concat (n : nat) :
  (0 < n)%nat ->
  forall (fuel : nat) (l : bytes),
    (List.length l <= fuel)%nat -> List.concat (chunks_fuel fuel n l) = l.
Proof.
  intros Hn. induction fuel as [| f IH]; intros l Hl.
  - destruct l; [reflexivity | simpl in Hl; lia].
  - destruct l as [| b r]; [reflexivity |].
    cbn [chunks_fuel List.concat]. rewrite IH.
    + apply firstn_skipn.
    + rewrite length_skipn. cbn [List.length] in *. lia.
Qed.

Lemma chunks_fuel_sizes (n : nat) :
  (0 < n)%nat ->
  forall (fuel : nat) (l : bytes),
    Forall (fun c => (0 < List.length c <= n)%nat) (chunks_fuel fuel n l).
Proof.
  intros Hn. induction fuel as [| f IH]; intros l; [constructor |].
  destruct l as [| b r]; [constructor |].
  cbn [chunks_fuel]. constructor; [| apply IH].
  rewrite length_firstn. cbn [List.length]. lia.
Qed.

Lemma raw_chunks_concat (n : nat) (resp : upstream_response) :
  (0 < n)%nat -> List.concat (raw_chunks n resp) = List.concat (raw resp).
Proof.
  intros Hn. unfold raw_chunks.
  induction (raw resp) as [| piece r IH]; [reflexivity |].
  cbn [flat_map List.concat]. rewrite concat_app, IH. f_equal.
  now apply chunks_fuel_concat.
Qed.

Lemma raw_chunks_sizes (n : nat) (resp : upstream_response) :
  (0 < n)%nat ->
  Forall (fun c => (0 < List.length c <= n)%nat) (raw_chunks n resp).
Proof.
  intros Hn. unfold raw_chunks.
  induction (raw resp) as [| piece r IH]; [constructor |].
  cbn [flat_map]. apply Forall_app. split; [| assumption].
  now apply chunks_fuel_sizes.
Qed.

(** Without a [Content-Encoding] nothing is decoded. *)
Lemma iter_content_plain
      (dc : nat -> upstream_response -> option (list bytes))
      (n : nat) (resp : upstream_response) :
  has_header (lit "content-encoding") (up_headers resp) = false ->
  iter_content dc n resp = raw_chunks n resp.
Proof. intros H. unfold iter_content. now rewrite H. Qed.

(* ================================================================== *)
(** * The response object *)

Lemma set_header_absent (key value : str) (hs : list (str * str)) :
  has_header (lower key) hs = false ->
  set_header key value hs = hs ++ [(key, value)].
Proof.
  induction hs as [| [n v] r IH]; [reflexivity |].
  cbn [has_header existsb set_header]. intros H.
  apply orb_false_iff in H. destruct H as [Hn Hr].
  rewrite Hn. cbn [app]. f_equal. now apply IH.
Qed.

(** The headers of a streamed response: those given, and the default
    content type when they name none. *)
Lemma Response_init_stream (n : nat) (resp : upstream_response) (st : Z)
      (hs : list (str * str)) :
  Response_init (BodyStream n resp) st hs
  = mk_Response (BodyStream n resp) st
      (if has_header (lit "content-type") hs then hs
       else hs ++ [(lit "Content-Type", lit "text/html; charset=utf-8")]).
Proof.
  unfold Response_init.
  destruct (has_header (lit "content-type") hs) eqn:H; [reflexivity |].
  now rewrite set_header_absent.
Qed.

(** The response of the [except] branch. *)
Lemma error_response_eq (e : exn) :
  error_response e
  = mk_Response (BodyText (lit "Error: " ++ exn_text e)) 502
      [(lit "Content-Type", lit "text/html; charset=utf-8");
       (lit "Content-Length",
        str_of_Z (Z.of_nat (List.length
                              (utf8_encode (lit "Error: " ++ exn_text e)))))].
Proof. reflexivity. Qed.

(* ================================================================== *)
(** * The handler *)

(** What one call of [proxy] returns and logs when [gui_instance] is
    bound. *)
Lemma proxy_run (rr : requests_args -> result upstream_response)
      (rie : list (str * str) -> option exn) (gi : bool)
      (conf : dict value) (request : request) (path : str) :
  run (proxy rr rie (Some gi) conf request path)
  = match get_target_url conf request (req_method request) path with
    | Raised e => (Raised e, [])
    | Ok (url, rt) =>
      let line := emit gi (route_line request rt path) in
      match bindR (rr (outbound request url)) (relay rie) with
      | Ok r => (Ok r, [line])
      | Raised e =>
        if is_Exception e
        then (Ok (error_response e),
              [line; emit gi (lit "Error: " ++ exn_text e)])
        else (Raised e, [line])
      end
    end.
Proof.
  unfold run, proxy, bind, lift.
  destruct (get_target_url conf request (req_method request) path)
    as [[url rt] | e]; [| reflexivity].
  unfold try_except, log_message, bind, lift, ret, outbound, relay,
    sanitize_request_headers, route_line, error_response.
  cbn [app].
  destruct (rr _) as [resp | e]; cbn [bindR].
  - destruct (make_Response rie _ _ _) as [r | e]; [reflexivity |].
    now destruct (is_Exception e).
  - now destruct (is_Exception e).
Qed.

Lemma transport_error_is_Exception (e : exn) :
  is_transport_error e = true -> is_Exception e = true.
Proof.
  unfold is_transport_error, is_Exception. now destruct (exn_cls e).
Qed.

Lemma relayed_headers_clean (hs : list (str * str)) :
  Forall (fun kv => ~ In (lower (fst kv)) HOP_BY_HOP_HEADERS
                    /\ lower (fst kv) <> lit "content-encoding"
                    /\ lower (fst kv) <> lit "content-length")
         (if has_header (lit "content-type") (filter_response_headers hs)
          then filter_response_headers hs
          else filter_response_headers hs
               ++ [(lit "Content-Type", lit "text/html; charset=utf-8")]).
Proof.
  destruct (has_header (lit "content-type") (filter_response_headers hs));
    [apply filter_response_headers_clean |].
  apply Forall_app. split; [apply filter_response_headers_clean |].
  constructor; [| constructor]. cbn [fst]. repeat split.
  - apply str_in_not_In. reflexivity.
  - intros E. vm_compute in E. discriminate E.
  - intros E. vm_compute in E. discriminate E.
Qed.

(** C3, as the code has it.  When the upstream answers and the response
    can be built, the handler returns the upstream's status with, as body,
    the generator [iter_content(4096)] over the upstream response, not yet
    iterated; iterating it yields what the client yields, which is the body
    after the client has decoded its [Content-Encoding]; when the upstream
    sent no [Content-Encoding] these are the upstream's body bytes, in order
    and in chunks of 1 to 4096 bytes; and no header of the response is
    hop-by-hop, [content-encoding] or [content-length]. *)
Theorem proxied_exchange_relays
        (rr : requests_args -> result upstream_response)
        (rie : list (str * str) -> option exn)
        (dc : nat -> upstream_response -> option (list bytes)) (gi : bool)
        (conf : dict value) (request : request) (path url rt : str)
        (resp : upstream_response) :
  get_target_url conf request (req_method request) path = Ok (url, rt) ->
  rr (outbound request url) = Ok resp ->
  rie (filter_response_headers (up_headers resp)) = None ->
  exists r,
    fst (run (proxy rr rie (Some gi) conf request path)) = Ok r
    /\ status r = status_code resp
    /\ resp_body r = BodyStream 4096 resp
    /\ body_items dc (resp_body r) = iter_content dc 4096 resp
    /\ (has_header (lit "content-encoding") (up_headers resp) = false ->
        List.concat (body_items dc (resp_body r)) = List.concat (raw resp)
        /\ Forall (fun c => (0 < List.length c <= 4096)%nat)
                  (body_items dc (resp_body r)))
    /\ Forall (fun kv => ~ In (lower (fst kv)) HOP_BY_HOP_HEADERS
                         /\ lower (fst kv) <> lit "content-encoding"
                         /\ lower (fst kv) <> lit "content-length")
              (headers r).
Proof.
  intros Hurl Hup Hinit.
  exists (Response_init (BodyStream 4096 resp) (status_code resp)
                        (filter_response_headers (up_headers resp))).
  assert (H4096 : (0 < 4096)%nat) by apply Nat.lt_0_succ.
  rewrite proxy_run, Hurl. cbv zeta. rewrite Hup. cbn [bindR].
  unfold relay, make_Response. rewrite Hinit, Response_init_stream.
  cbn [fst status resp_body headers body_items].
  split; [reflexivity |]. split; [reflexivity |]. split; [reflexivity |].
  split; [reflexivity |]. split.
  - intros Hplain. rewrite iter_content_plain by assumption. split.
    + now apply raw_chunks_concat.
    + now apply raw_chunks_sizes.
  - apply relayed_headers_clean.
Qed.

Lemma proxied_exchange_relays_witness :
  exists r,
    fst (run (proxy upstream_404 no_init_error (Some true) demo_conf demo_get
                    (lit "files/doc.txt"))) = Ok r
    /\ status r = 404%Z
    /\ List.concat (body_items no_decoder (resp_body r))
       = list_byte_of_string "missing"
    /\ headers r = [(lit "Content-Type", lit "text/plain")].
Proof.
  destruct (proxied_exchange_relays upstream_404 no_init_error no_decoder
              true demo_conf demo_get (lit "files/doc.txt")
              (lit "http://a/files/doc.txt?x=1") (lit "READ (Tailscale)")
              (mk_upstream 404
                 [(lit "Content-Type", lit "text/plain");
                  (lit "Content-Length", lit "7");
                  (lit "Connection", lit "close")]
                 [list_byte_of_string "missing"])
              eq_refl eq_refl eq_refl)
    as [r [Hr [Hst [Hbody [_ [Hplain _]]]]]].
  exists r. destruct (Hplain eq_refl) as [Hconcat _].
  repeat split; try assumption.
  rewrite proxy_run in Hr. injection Hr as <-. reflexivity.
Defined.

(** C3 as worded fails: an upstream that answers with a gzip body and
    declares it has its body decoded by the client, so that the bytes
    relayed are those of "missing" and not the bytes the upstream sent. *)
Lemma gzip_body_is_decoded :
  List.concat (body_items gunzip_missing (BodyStream 4096 gzip_answer))
  = list_byte_of_string "missing"
  /\ ~ relays_upstream_bytes.
Proof.
  split; [reflexivity |]. intros H.
  destruct (H upstream_gzip no_init_error gunzip_missing true demo_conf
              demo_get (lit "files/doc.txt") gzip_answer)
    as [r [Hr Hb]].
  - exists (lit "http://a/files/doc.txt?x=1"), (lit "READ (Tailscale)").
    split; reflexivity.
  - reflexivity.
  - rewrite proxy_run in Hr. injection Hr as <-. discriminate Hb.
Qed.

(** C6, as the code has it.  When the upstream call fails with a transport
    error, the handler returns status 502 with the text "Error: " followed
    by the error's description as body, under Flask's default content type
    [text/html] and with the length of the text, and logs, after the line
    of the routed request, exactly one line for the failure, with the same
    text. *)
Theorem transport_error_gives_502
        (rr : requests_args -> result upstream_response)
        (rie : list (str * str) -> option exn) (gi : bool)
        (conf : dict value) (request : request) (path url rt : str)
        (e : exn) :
  get_target_url conf request (req_method request) path = Ok (url, rt) ->
  rr (outbound request url) = Raised e ->
  is_transport_error e = true ->
  run (proxy rr rie (Some gi) conf request path)
  = (Ok (mk_Response
           (BodyText (lit "Error: " ++ exn_text e)) 502
           [(lit "Content-Type", lit "text/html; charset=utf-8");
            (lit "Content-Length",
             str_of_Z (Z.of_nat
                         (List.length
                            (utf8_encode (lit "Error: " ++ exn_text e)))))]),
     [emit gi (route_line request rt path);
      emit gi (lit "Error: " ++ exn_text e)]).
Proof.
  intros Hurl Hup He. apply transport_error_is_Exception in He.
  rewrite proxy_run, Hurl. cbv zeta. rewrite Hup. cbn [bindR].
  now rewrite He, error_response_eq.
Qed.

Lemma transport_error_gives_502_witness :
  run (proxy upstream_refused no_init_error (Some true) demo_conf demo_get
             (lit "files/doc.txt"))
  = (Ok (mk_Response (BodyText (lit "Error: Connection refused")) 502
           [(lit "Content-Type", lit "text/html; charset=utf-8");
            (lit "Content-Length", lit "25")]),
     [GuiLog (lit "[GET] READ (Tailscale): /files/doc.txt");
      GuiLog (lit "Error: Connection refused")]).
Proof.
  exact (transport_error_gives_502 upstream_refused no_init_error true
           demo_conf demo_get (lit "files/doc.txt")
           (lit "http://a/files/doc.txt?x=1") (lit "READ (Tailscale)")
           (mk_exn RequestsConnectionError (lit "Connection refused"))
           eq_refl eq_refl eq_refl).
Defined.

(** C6 as worded fails: the body of the 502 is not declared as plain text,
    the response carries Flask's default content type. *)
Lemma error_is_html :
  get_header (lit "content-type")
             (headers (error_response
                         (mk_exn RequestsConnectionError
                                 (lit "Connection refused"))))
  = Some (lit "text/html; charset=utf-8")
  /\ ~ error_is_plain_text.
Proof.
  split; [reflexivity |]. intros H.
  destruct (H upstream_refused no_init_error true demo_conf demo_get
              (lit "files/doc.txt")
              (mk_exn RequestsConnectionError (lit "Connection refused")))
    as [r [Hr [_ Hplain]]].
  - exists (lit "http://a/files/doc.txt?x=1"), (lit "READ (Tailscale)").
    split; reflexivity.
  - reflexivity.
  - rewrite proxy_run in Hr. injection Hr as <-. discriminate Hplain.
Qed.




(* ================================================================== *)
(** * The shared configuration *)

Lemma heap_set_length (p : loc) (d : dict value) (h : heap) :
  List.length (heap_set p d h) = List.length h.
Proof.
  revert p. induction h as [| x r IH]; intros p; [reflexivity |].
  destruct p; simpl; [reflexivity | now rewrite IH].
Qed.

Lemma heap_get_set (p : loc) (d : dict value) (h : heap) :
  (p < List.length h)%nat -> heap_get (heap_set p d h) p = d.
Proof.
  unfold heap_get. revert p. induction h as [| x r IH]; intros p Hp.
  - simpl in Hp. lia.
  - destruct p; [reflexivity |]. simpl in *. apply IH. lia.
Qed.

(** A store through either reference is seen at once behind the other. *)
Lemma store_active_config (k : str) (v : value) (w : world) :
  (config (app_state w) < List.length (w_heap w))%nat ->
  active_config (store (config (app_state w)) k v w)
  = dict_set k v (active_config w).
Proof.
  intros Hp. unfold active_config, store. simpl. now apply heap_get_set.
Qed.

Lemma store_valid (p : loc) (k : str) (v : value) (w : world) :
  (config (app_state w) < List.length (w_heap w))%nat ->
  (config (app_state (store p k v w))
   < List.length (w_heap (store p k v w)))%nat.
Proof. intros H. unfold store. simpl. now rewrite heap_set_length. Qed.

Ltac conjs := repeat match goal with |- _ /\ _ => split end.

Ltac eval_key_tests :=
  repeat match goal with
         | |- context [str_eqb (lit ?a) (lit ?b)] =>
           let t := eval vm_compute in (str_eqb (lit a) (lit b)) in
           change (str_eqb (lit a) (lit b)) with t
         end;
  cbv iota.

(** What one statement does to each part of the state. *)
Lemma running_exec (s : stmt) (w : world) :
  running (app_state (exec_stmt s w))
  = match s with SetRunning => true | _ => running (app_state w) end.
Proof. now destruct s. Qed.

Lemma threads_exec (s : stmt) (w : world) :
  threads_started (exec_stmt s w)
  = match s with
    | StartThread => S (threads_started w)
    | _ => threads_started w
    end.
Proof. now destruct s. Qed.

Lemma dialogs_exec (s : stmt) (w : world) :
  dialogs (exec_stmt s w)
  = match s with Dialog d => dialogs w ++ [d] | _ => dialogs w end.
Proof. now destruct s. Qed.

Lemma active_config_exec (s : stmt) (w : world) :
  active_config (exec_stmt s w)
  = match s with
    | SetSelfConfig k v => active_config (store (self_config (gui w)) k v w)
    | SetAppConfig k v => active_config (store (config (app_state w)) k v w)
    | PublishConfig => heap_get (w_heap w) (self_config (gui w))
    | _ => active_config w
    end.
Proof. now destruct s. Qed.

Lemma set_app_config_valid (k : str) (v : value) (w : world) :
  (config (app_state w) < List.length (w_heap w))%nat ->
  (config (app_state (exec_stmt (SetAppConfig k v) w))
   < List.length (w_heap (exec_stmt (SetAppConfig k v) w)))%nat.
Proof. apply store_valid. Qed.

Lemma set_app_config_active (k : str) (v : value) (w : world) :
  (config (app_state w) < List.length (w_heap w))%nat ->
  active_config (exec_stmt (SetAppConfig k v) w)
  = dict_set k v (active_config w).
Proof. apply store_active_config. Qed.

Lemma toggle_server_stopped (w : world) :
  running (app_state w) = false ->
  toggle_server w
  = exec_stmts
      [ SetAppConfig (lit "tailscale_url") (VStr (ts_url_var (gui w)));
        SetAppConfig (lit "cloudflare_url") (VStr (cf_url_var (gui w)));
        SetAppConfig (lit "local_port") (VStr (port_var (gui w)));
        StartThread; SetRunning; SetServerThread; DisableButton;
        AppendLog (lit ">>> 服务已启动");
        AppendLog (lit ">>> WebDAV 本地地址: http://127.0.0.1:"
                   ++ port_var (gui w)) ] w.
Proof.
  intros H. unfold toggle_server, toggle_server_stmts. now rewrite H.
Qed.

Lemma toggle_server_config (w : world) :
  running (app_state w) = false ->
  (config (app_state w) < List.length (w_heap w))%nat ->
  active_config (toggle_server w)
  = dict_set (lit "local_port") (VStr (port_var (gui w)))
      (dict_set (lit "cloudflare_url") (VStr (cf_url_var (gui w)))
         (dict_set (lit "tailscale_url") (VStr (ts_url_var (gui w)))
            (active_config w))).
Proof.
  intros Hstop Hvalid. rewrite toggle_server_stopped by assumption.
  unfold exec_stmts. cbn [fold_left].
  do 6 (rewrite active_config_exec; cbv iota).
  rewrite !set_app_config_active; auto using set_app_config_valid.
Qed.

Lemma set_self_config_dict (k : str) (v : value) (w : world) :
  (self_config (gui w) < List.length (w_heap w))%nat ->
  heap_get (w_heap (exec_stmt (SetSelfConfig k v) w))
           (self_config (gui (exec_stmt (SetSelfConfig k v) w)))
  = dict_set k v (heap_get (w_heap w) (self_config (gui w)))
  /\ (self_config (gui (exec_stmt (SetSelfConfig k v) w))
      < List.length (w_heap (exec_stmt (SetSelfConfig k v) w)))%nat.
Proof.
  intros Hp. cbn [exec_stmt]. unfold store. simpl.
  rewrite heap_set_length. split; [now apply heap_get_set | assumption].
Qed.

Lemma save_config_config (write_error : option exn) (w : world) :
  (self_config (gui w) < List.length (w_heap w))%nat ->
  active_config (save_config write_error w)
  = dict_set (lit "auto_start") (VBool (auto_start_var (gui w)))
      (dict_set (lit "local_port") (VStr (port_var (gui w)))
         (dict_set (lit "cloudflare_url") (VStr (cf_url_var (gui w)))
            (dict_set (lit "tailscale_url") (VStr (ts_url_var (gui w)))
               (heap_get (w_heap w) (self_config (gui w)))))).
Proof.
  intros H0. unfold save_config, save_config_stmts, exec_stmts.
  cbn [fold_left]. do 2 (rewrite active_config_exec; cbv iota).
  destruct (set_self_config_dict (lit "tailscale_url")
              (VStr (ts_url_var (gui w))) w H0) as [E1 H1].
  destruct (set_self_config_dict (lit "cloudflare_url")
              (VStr (cf_url_var (gui w))) _ H1) as [E2 H2].
  destruct (set_self_config_dict (lit "local_port")
              (VStr (port_var (gui w))) _ H2) as [E3 H3].
  destruct (set_self_config_dict (lit "auto_start")
              (VBool (auto_start_var (gui w))) _ H3) as [E4 _].
  now rewrite E4, E3, E2, E1.
Qed.

(** Whenever the server has been started, and after every later save, both
    upstream entries of the active configuration are text, so that
    [get_target_url] finds a string to strip. *)
Lemma started_config_is_text (w : world) :
  running (app_state w) = false ->
  (config (app_state w) < List.length (w_heap w))%nat ->
  conf_get (active_config (toggle_server w)) (lit "tailscale_url") (VStr [])
  = VStr (ts_url_var (gui w))
  /\ conf_get (active_config (toggle_server w)) (lit "cloudflare_url")
              (VStr [])
     = VStr (cf_url_var (gui w)).
Proof.
  intros Hstop Hvalid. rewrite toggle_server_config by assumption.
  unfold conf_get. rewrite !dict_get_set. eval_key_tests. now split.
Qed.

Lemma saved_config_is_text (write_error : option exn) (w : world) :
  (self_config (gui w) < List.length (w_heap w))%nat ->
  conf_get (active_config (save_config write_error w)) (lit "tailscale_url")
           (VStr [])
  = VStr (ts_url_var (gui w))
  /\ conf_get (active_config (save_config write_error w))
              (lit "cloudflare_url") (VStr [])
     = VStr (cf_url_var (gui w)).
Proof.
  intros Hvalid. rewrite save_config_config by assumption.
  unfold conf_get. rewrite !dict_get_set. eval_key_tests. now split.
Qed.

(** C7, as the code has it.  Starting performs no validation and reports
    no error: on a stopped server [toggle_server] copies the two base URLs
    and the port from the form into the active configuration whatever they
    are, empty ones included, starts the server thread, sets the running
    flag and shows no dialog. *)
Theorem toggle_server_starts_unchecked (w : world) :
  running (app_state w) = false ->
  (config (app_state w) < List.length (w_heap w))%nat ->
  running (app_state (toggle_server w)) = true
  /\ threads_started (toggle_server w) = S (threads_started w)
  /\ dialogs (toggle_server w) = dialogs w
  /\ conf_get (active_config (toggle_server w)) (lit "tailscale_url") (VStr [])
     = VStr (ts_url_var (gui w))
  /\ conf_get (active_config (toggle_server w)) (lit "cloudflare_url")
              (VStr [])
     = VStr (cf_url_var (gui w))
  /\ conf_get (active_config (toggle_server w)) (lit "local_port") (VInt 8888)
     = VStr (port_var (gui w)).
Proof.
  intros Hstop Hvalid.
  pose proof (toggle_server_config w Hstop Hvalid) as Hcfg.
  conjs.
  - rewrite toggle_server_stopped by assumption.
    unfold exec_stmts. cbn [fold_left].
    repeat (rewrite running_exec; cbv iota). reflexivity.
  - rewrite toggle_server_stopped by assumption.
    unfold exec_stmts. cbn [fold_left].
    repeat (rewrite threads_exec; cbv iota). reflexivity.
  - rewrite toggle_server_stopped by assumption.
    unfold exec_stmts. cbn [fold_left].
    repeat (rewrite dialogs_exec; cbv iota). reflexivity.
  - rewrite Hcfg. unfold conf_get. rewrite !dict_get_set. eval_key_tests.
    reflexivity.
  - rewrite Hcfg. unfold conf_get. rewrite !dict_get_set. eval_key_tests.
    reflexivity.
  - rewrite Hcfg. unfold conf_get. rewrite !dict_get_set. eval_key_tests.
    reflexivity.
Qed.

Lemma toggle_server_starts_unchecked_witness :
  running (app_state (toggle_server empty_world)) = true
  /\ conf_get (active_config (toggle_server empty_world))
              (lit "tailscale_url") (VStr []) = VStr []
  /\ dialogs (toggle_server empty_world) = [].
Proof.
  destruct (toggle_server_starts_unchecked empty_world eq_refl)
    as [Hrun [_ [Hdlg [Hts _]]]].
  - vm_compute. lia.
  - conjs; [exact Hrun | exact Hts | exact Hdlg].
Defined.

(** C7 as worded fails: with both base URLs empty the server is started
    all the same and no error is reported. *)
Lemma start_rejects_empty_url_fails : ~ start_rejects_empty_url.
Proof.
  intros H. specialize (H empty_world eq_refl (or_introl eq_refl)).
  discriminate H.
Qed.

(** ** Requests beside a configuration change *)

Lemma nth_error_update_nth {A} (f : A -> A) (l : list A) :
  forall i j,
    nth_error (update_nth j f l) i
    = if Nat.eqb i j then option_map f (nth_error l i) else nth_error l i.
Proof.
  induction l as [| x r IH]; intros i j.
  - destruct j, i; simpl; try reflexivity; now destruct (Nat.eqb i j).
  - destruct j as [| j], i as [| i]; simpl; try reflexivity. apply IH.
Qed.

Lemma sys_step_keeps_target (s : sys) (t : tick) (i : nat)
      (r : result (str * str)) :
  pc_of s i = Some (HasTarget r) -> pc_of (sys_step s t) i = Some (HasTarget r).
Proof.
  unfold pc_of. intros H. destruct t as [| j]; simpl.
  - now destruct (gui_todo s).
  - rewrite nth_error_update_nth. destruct (Nat.eqb i j); [| assumption].
    destruct (nth_error (flights s) i) as [f |]; [| discriminate].
    simpl in *. injection H as H. unfold req_step. rewrite H. cbv iota.
    now rewrite H.
Qed.

Lemma sys_run_keeps_target (ticks : list tick) :
  forall (s : sys) (i : nat) (r : result (str * str)),
    pc_of s i = Some (HasTarget r) ->
    pc_of (sys_run ticks s) i = Some (HasTarget r).
Proof.
  induction ticks as [| t ticks IH]; intros s i r H; [assumption |].
  simpl. apply IH. now apply sys_step_keeps_target.
Qed.

(** C8, as the code has it.  There are no snapshots: a store into the
    shared dictionary is visible at once to the request threads; a request
    that holds the dictionary takes its target from the dictionary as it is
    at the moment of its single read; and from then on no change of the
    configuration, in any interleaving, alters that target. *)
Theorem config_read_once :
  (forall k v w,
      self_config (gui w) = config (app_state w) ->
      (config (app_state w) < List.length (w_heap w))%nat ->
      active_config (exec_stmt (SetSelfConfig k v) w)
      = dict_set k v (active_config w))
  /\ (forall s i f c,
         nth_error (flights s) i = Some f ->
         fl_pc f = HasConf c ->
         pc_of (sys_step s (TickReq i)) i
         = Some (HasTarget
                   (get_target_url (heap_get (w_heap (sys_world s)) c)
                      (fl_request f) (req_method (fl_request f))
                      (fl_path f))))
  /\ (forall s ticks i r,
         pc_of s i = Some (HasTarget r) ->
         pc_of (sys_run ticks s) i = Some (HasTarget r)).
Proof.
  conjs.
  - intros k v w Halias Hvalid. cbn [exec_stmt]. rewrite Halias.
    now apply store_active_config.
  - intros s i f c Hf Hpc. unfold pc_of. simpl.
    rewrite nth_error_update_nth, Nat.eqb_refl, Hf. simpl.
    unfold req_step. now rewrite Hpc.
  - intros s ticks i r. apply sys_run_keeps_target.
Qed.

Lemma config_read_once_witness :
  pc_of (sys_run [TickReq 0%nat; TickReq 0%nat; TickGui; TickGui; TickGui] demo_sys)
        0%nat
  = Some (HasTarget (Ok (lit "http://192.168.100.10:5000/files/doc.txt?x=1",
                         lit "READ (Tailscale)")))
  /\ conf_get (active_config
                 (sys_world
                    (sys_run [TickReq 0%nat; TickReq 0%nat; TickGui; TickGui; TickGui]
                             demo_sys)))
              (lit "tailscale_url") (VStr [])
     = VStr (lit "http://new-read").
Proof.
  destruct config_read_once as [_ [_ Hkeep]].
  split; [| reflexivity].
  apply (Hkeep (sys_run [TickReq 0%nat; TickReq 0%nat] demo_sys)
               [TickGui; TickGui; TickGui]).
  reflexivity.
Defined.

(** C8 as worded fails on both counts.  After the first statement of
    [save_config] the active configuration is neither the old nor the new
    one; and a request that captured the configuration before that
    statement computes its target from the new read upstream. *)
Lemma config_change_not_atomic :
  ~ publishes_atomically /\ ~ uses_captured_snapshot.
Proof.
  split.
  - intros H. destruct (H None demo_world 1%nat) as [E | E];
      vm_compute in E; discriminate E.
  - intros H.
    specialize (H (sys_run [TickReq 0%nat] demo_sys) [TickGui; TickReq 0%nat] 0%nat
                  (mk_in_flight demo_get (lit "files/doc.txt") (HasConf 1%nat))
                  1%nat
                  (Ok (lit "http://new-read/files/doc.txt?x=1",
                       lit "READ (Tailscale)"))
                  eq_refl eq_refl eq_refl).
    vm_compute in H. discriminate H.
Qed.

(* ================================================================== *)
(** * Further properties of the classifier *)

Lemma rstrip_strippable (chars t : str) :
  Forall (fun x => existsb (N.eqb x) chars = true) t -> rstrip chars t = [].
Proof.
  induction 1 as [| x t Hx _ IH]; [reflexivity |].
  simpl. now rewrite IH, Hx.
Qed.

Lemma rstrip_app_strippable (chars s t : str) :
  Forall (fun x => existsb (N.eqb x) chars = true) t ->
  rstrip chars (s ++ t) = rstrip chars s.
Proof.
  intros Ht. induction s as [| x r IH]; simpl.
  - now apply rstrip_strippable.
  - now rewrite IH.
Qed.

Lemma slashes_strippable (k : nat) :
  Forall (fun x => existsb (N.eqb x) (lit "/") = true) (repeat 47 k).
Proof. induction k; simpl; constructor; auto. Qed.

(** X1.  When the entry of the upstream a method is routed to is missing
    from the configuration, or is empty or made of slashes only, the target
    has no scheme and no host: it is a slash and the path, with the query
    when there is one. *)
Theorem missing_base_rootless (conf : dict value) (request : request)
        (method path q : str) :
  dict_get (route_key method) conf = None
  \/ (exists k, dict_get (route_key method) conf
                = Some (VStr (repeat 47 k))) ->
  utf8_decode (req_query_string request) = Some q ->
  get_target_url conf request method path
  = Ok (lit "/" ++ path ++ query_suffix request q, route_label method).
Proof.
  intros Hbase Hq.
  assert (Hu : exists u, conf_get conf (route_key method) (VStr []) = VStr u
                         /\ rstrip (lit "/") u = []).
  { unfold conf_get. destruct Hbase as [-> | [k ->]].
    - now exists [].
    - exists (repeat 47 k). split; [reflexivity |].
      apply rstrip_strippable, slashes_strippable. }
  destruct Hu as [u [Hu Hs]].
  rewrite (get_target_url_text conf request method path u q Hu Hq).
  now rewrite Hs.
Qed.

Lemma missing_base_rootless_witness :
  get_target_url [] demo_get (lit "GET") (lit "files/doc.txt")
  = Ok (lit "/files/doc.txt?x=1", lit "READ (Tailscale)").
Proof.
  exact (missing_base_rootless [] demo_get (lit "GET") (lit "files/doc.txt")
           (lit "x=1") (or_introl eq_refl) eq_refl).
Defined.

(** X2.  When the entry of the upstream a method is routed to is not text,
    [get_target_url] raises [AttributeError] for every path and every query
    string, decodable or not: stripping comes before decoding. *)
Theorem non_text_base_raises (conf : dict value) (request : request)
        (method path : str) (v : value) :
  dict_get (route_key method) conf = Some v ->
  (forall s, v <> VStr s) ->
  get_target_url conf request method path
  = Raised (mk_exn AttributeError
              (lit "'" ++ type_name_of v
               ++ lit "' object has no attribute 'rstrip'")).
Proof.
  intros Hv Hn. unfold get_target_url, route_base, route_key, conf_get in *.
  destruct (str_in (upper method) READ_METHODS); rewrite Hv;
    destruct v; try reflexivity; now elim (Hn s).
Qed.

Lemma non_text_base_raises_witness :
  get_target_url number_conf bad_query_request (lit "GET") (lit "files")
  = Raised (mk_exn AttributeError
              (lit "'int' object has no attribute 'rstrip'")).
Proof.
  apply (non_text_base_raises number_conf bad_query_request (lit "GET")
           (lit "files") (VInt 5) eq_refl).
  intros s H. discriminate H.
Defined.

(** X3.  Trailing slashes of a configured upstream do not matter: two
    configurations whose entries for the routed upstream differ only by
    slashes at the end give the same result for every request. *)
Theorem trailing_slashes_irrelevant (conf1 conf2 : dict value)
        (request : request) (method path u : str) (k : nat) :
  conf_get conf1 (route_key method) (VStr []) = VStr u ->
  conf_get conf2 (route_key method) (VStr []) = VStr (u ++ repeat 47 k) ->
  get_target_url conf1 request method path
  = get_target_url conf2 request method path.
Proof.
  intros H1 H2. unfold get_target_url, route_base, route_key in *.
  destruct (str_in (upper method) READ_METHODS); rewrite H1, H2;
    cbn [value_rstrip];
    now rewrite rstrip_app_strippable by apply slashes_strippable.
Qed.

Lemma trailing_slashes_irrelevant_witness :
  get_target_url [(lit "cloudflare_url", VStr (lit "http://b"))]
                 demo_put (lit "PUT") (lit "files/doc.txt")
  = get_target_url demo_conf demo_put (lit "PUT") (lit "files/doc.txt").
Proof.
  exact (trailing_slashes_irrelevant
           [(lit "cloudflare_url", VStr (lit "http://b"))] demo_conf
           demo_put (lit "PUT") (lit "files/doc.txt") (lit "http://b")
           1%nat eq_refl eq_refl).
Defined.

(* ================================================================== *)
(** * Further properties of the sanitizers *)

Lemma dict_contains_keys {V : Type} (k : str) (d : dict V) :
  dict_contains k d = true <-> In k (dict_keys d).
Proof.
  unfold dict_contains. destruct (dict_get k d) eqn:G.
  - split; [intros _ | reflexivity].
    apply dict_get_In in G. change k with (fst (k, v)). now apply in_map.
  - apply dict_get_None in G. split; [discriminate | contradiction].
Qed.

Lemma dict_get_of_In {V : Type} (k : str) (v : V) (d : dict V) :
  NoDup (dict_keys d) -> In (k, v) d -> dict_get k d = Some v.
Proof.
  induction d as [| [k0 v0] r IH]; intros Hnd Hin; [contradiction |].
  simpl in *. inversion Hnd as [| ? ? Hk0 Hr]; subst.
  destruct Hin as [[= -> ->] | Hin].
  - now rewrite str_eqb_refl.
  - destruct (str_eqb k0 k) eqn:E; [| now apply IH].
    apply str_eqb_eq in E. subst k0. exfalso. apply Hk0.
    change k with (fst (k, v)). now apply in_map.
Qed.

Lemma last_value_In {V : Type} (k : str) (v : V) (kvs : list (str * V)) :
  last_value k kvs = Some v -> In (k, v) kvs.
Proof. unfold last_value. intros H. apply dict_get_In in H. now apply in_rev. Qed.

Lemma first_occurrences_In (l : list str) (k : str) :
  In k (first_occurrences l) <-> In k l.
Proof.
  unfold first_occurrences. now rewrite <- in_rev, nodup_In, <- in_rev.
Qed.

Lemma first_occurrences_snoc (l : list str) (k : str) :
  first_occurrences (l ++ [k])
  = if in_dec str_eq_dec k l then first_occurrences l
    else first_occurrences l ++ [k].
Proof.
  unfold first_occurrences. rewrite rev_app_distr. simpl.
  destruct (in_dec str_eq_dec k (rev l)) as [H | H];
    destruct (in_dec str_eq_dec k l) as [H' | H']; try reflexivity.
  - exfalso. apply H'. now apply in_rev.
  - exfalso. apply H. now apply in_rev in H'.
Qed.

Lemma clean_headers_snoc (hs : list (str * str)) (kv : str * str) :
  clean_headers (hs ++ [kv]) = clean_headers_body (clean_headers hs) kv.
Proof. unfold clean_headers. now rewrite fold_left_app. Qed.

(** X4.  The cleaned request headers list the kept names in the order in
    which they first occur inbound: a repeated name stays where it first
    stood, with the value of its last occurrence. *)
Theorem clean_headers_key_order (hs : list (str * str)) :
  dict_keys (clean_headers hs)
  = first_occurrences (filter keep_request_header (map fst hs)).
Proof.
  induction hs as [| [k v] hs IH] using rev_ind; [reflexivity |].
  rewrite clean_headers_snoc, map_app, filter_app. simpl.
  destruct (keep_request_header k) eqn:Kk.
  - rewrite dict_keys_set, first_occurrences_snoc, <- IH.
    destruct (dict_contains k (clean_headers hs)) eqn:C;
      destruct (in_dec str_eq_dec k
                  (filter keep_request_header (map fst hs))) as [H | H];
      try reflexivity; exfalso.
    + apply dict_contains_keys in C. rewrite IH in C.
      apply (proj1 (first_occurrences_In _ _)) in C. contradiction.
    + apply (proj2 (first_occurrences_In _ _)) in H. rewrite <- IH in H.
      apply (proj2 (dict_contains_keys _ _)) in H. congruence.
  - now rewrite app_nil_r.
Qed.

Example clean_headers_key_order_example :
  clean_headers [(lit "Depth", lit "0"); (lit "Host", lit "h");
                 (lit "If", lit "a"); (lit "Depth", lit "1")]
  = [(lit "Depth", lit "1"); (lit "If", lit "a")].
Proof. reflexivity. Qed.

(** X5.  The upstream call always carries a [User-Agent]: the client's own
    (the last one it sent) when the inbound headers have that name, and the
    fixed "SmartWebDAVProxy/2.0" otherwise; the client's value is never
    overwritten. *)
Theorem user_agent_always_sent (hs : list (str * str)) :
  dict_get (lit "User-Agent") (sanitize_request_headers hs)
  = Some (match last_value (lit "User-Agent") hs with
          | Some v => v
          | None => lit "SmartWebDAVProxy/2.0"
          end).
Proof.
  unfold sanitize_request_headers. rewrite add_user_agent_eq.
  unfold dict_contains.
  assert (G : dict_get (lit "User-Agent") (clean_headers hs)
              = last_value (lit "User-Agent") hs).
  { rewrite clean_headers_get.
    now replace (keep_request_header (lit "User-Agent")) with true
      by (vm_compute; reflexivity). }
  rewrite G. destruct (last_value (lit "User-Agent") hs) as [v |] eqn:L.
  - exact G.
  - rewrite dict_get_app, G. cbn [dict_get]. now rewrite str_eqb_refl.
Qed.

(** X6.  Apart from the default [User-Agent], request sanitization invents
    nothing: every pair it returns is a pair of the inbound headers with a
    name that is kept, or is the default, and the default only appears when
    the inbound headers have no [User-Agent]. *)
Theorem sanitize_invents_nothing (hs : list (str * str)) (k v : str) :
  In (k, v) (sanitize_request_headers hs) ->
  (In (k, v) hs /\ keep_request_header k = true)
  \/ (k = lit "User-Agent" /\ v = lit "SmartWebDAVProxy/2.0"
      /\ last_value (lit "User-Agent") hs = None).
Proof.
  unfold sanitize_request_headers. rewrite add_user_agent_eq.
  assert (Hclean : In (k, v) (clean_headers hs) ->
                   In (k, v) hs /\ keep_request_header k = true).
  { intros Hin. destruct (clean_headers_keys hs) as [Hnd _].
    apply dict_get_of_In in Hin; [| assumption].
    rewrite clean_headers_get in Hin.
    destruct (keep_request_header k); [| discriminate].
    split; [now apply last_value_In | reflexivity]. }
  unfold dict_contains.
  destruct (dict_get (lit "User-Agent") (clean_headers hs)) eqn:G.
  - intros Hin. left. now apply Hclean.
  - intros Hin. apply in_app_or in Hin. destruct Hin as [Hin | Hin].
    + left. now apply Hclean.
    + right. destruct Hin as [[= <- <-] | []].
      repeat split. rewrite clean_headers_get in G.
      now replace (keep_request_header (lit "User-Agent")) with true in G
        by (vm_compute; reflexivity).
Qed.

Lemma sanitize_invents_nothing_witness :
  (In (lit "Depth", lit "1") (req_headers demo_get)
   /\ keep_request_header (lit "Depth") = true)
  \/ (lit "Depth" = lit "User-Agent" /\ lit "1" = lit "SmartWebDAVProxy/2.0"
      /\ last_value (lit "User-Agent") (req_headers demo_get) = None).
Proof.
  apply (sanitize_invents_nothing (req_headers demo_get) (lit "Depth")
           (lit "1")).
  vm_compute. left. reflexivity.
Defined.

(** X7.  The response side drops what the request side drops, except
    [host], and in addition [content-encoding] and [content-length]; the
    two names that [excluded_headers] lists a second time change nothing. *)
Theorem response_exclusions (k : str) :
  str_in (lower k) excluded_headers = true
  <-> (keep_request_header k = false /\ lower k <> lit "host")
      \/ lower k = lit "content-encoding"
      \/ lower k = lit "content-length".
Proof.
  rewrite str_in_In, keep_request_header_false. unfold excluded_headers.
  rewrite in_app_iff.
  assert (Hhost : ~ In (lit "host") HOP_BY_HOP_HEADERS).
  { apply str_in_not_In. reflexivity. }
  assert (Hte : In (lit "transfer-encoding") HOP_BY_HOP_HEADERS)
    by (apply str_in_In; reflexivity).
  assert (Hconn : In (lit "connection") HOP_BY_HOP_HEADERS)
    by (apply str_in_In; reflexivity).
  split.
  - intros [H | [H | [H | [H | [H | []]]]]].
    + left. split; [now left |]. intros E. rewrite E in H. contradiction.
    + right. now left.
    + right. now right.
    + left. rewrite <- H. split; [now left |]. intros E.
      vm_compute in E. discriminate E.
    + left. rewrite <- H. split; [now left |]. intros E.
      vm_compute in E. discriminate E.
  - intros [[[H | H] Hn] | [H | H]].
    + now left.
    + contradiction.
    + right. left. now rewrite H.
    + right. right. left. now rewrite H.
Qed.

(* ================================================================== *)
(** * Further properties of the handler and of the server thread *)

(** X8.  On a successful exchange the headers of the response are the
    upstream's headers without the excluded names, in their order, followed
    by Flask's default content type when none of them is a content type:
    every upstream header whose lower-case name is not excluded is relayed
    with its value (a redirect's [Location] among them, redirects not being
    followed), and the default content type is the only header that does
    not come from the upstream. *)
Theorem relayed_headers_complete
        (rr : requests_args -> result upstream_response)
        (rie : list (str * str) -> option exn) (gi : bool)
        (conf : dict value) (request : request) (path url rt : str)
        (resp : upstream_response) :
  get_target_url conf request (req_method request) path = Ok (url, rt) ->
  rr (outbound request url) = Ok resp ->
  rie (filter_response_headers (up_headers resp)) = None ->
  exists r,
    fst (run (proxy rr rie (Some gi) conf request path)) = Ok r
    /\ headers r
       = (if has_header (lit "content-type")
                        (filter_response_headers (up_headers resp))
          then filter_response_headers (up_headers resp)
          else filter_response_headers (up_headers resp)
               ++ [(lit "Content-Type", lit "text/html; charset=utf-8")])
    /\ (forall n v,
           In (n, v) (headers r)
           <-> (In (n, v) (up_headers resp)
                /\ str_in (lower n) excluded_headers = false)
               \/ ((n, v) = (lit "Content-Type",
                             lit "text/html; charset=utf-8")
                   /\ has_header (lit "content-type")
                                 (filter_response_headers (up_headers resp))
                      = false)).
Proof.
  intros Hurl Hup Hinit.
  exists (Response_init (BodyStream 4096 resp) (status_code resp)
                        (filter_response_headers (up_headers resp))).
  rewrite proxy_run, Hurl. cbv zeta. rewrite Hup. cbn [bindR].
  unfold relay, make_Response. rewrite Hinit, Response_init_stream.
  cbn [fst headers].
  split; [reflexivity |]. split; [reflexivity |].
  assert (Hfilter : forall n v,
             In (n, v) (filter_response_headers (up_headers resp))
             <-> In (n, v) (up_headers resp)
                 /\ str_in (lower n) excluded_headers = false).
  { intros n v. unfold filter_response_headers.
    rewrite filter_In, negb_true_iff. reflexivity. }
  intros n v.
  destruct (has_header (lit "content-type")
                       (filter_response_headers (up_headers resp))).
  - rewrite Hfilter. split; [now left |].
    intros [H | [_ H]]; [assumption | discriminate H].
  - rewrite in_app_iff, Hfilter. split.
    + intros [H | [H | []]]; [now left |]. right. now split.
    + intros [H | [H _]]; [now left |]. right. now left.
Qed.

Lemma relayed_headers_complete_witness :
  exists r,
    fst (run (proxy upstream_404 no_init_error (Some true) demo_conf demo_get
                    (lit "files/doc.txt"))) = Ok r
    /\ headers r = [(lit "Content-Type", lit "text/plain")].
Proof.
  destruct (relayed_headers_complete upstream_404 no_init_error true
              demo_conf demo_get (lit "files/doc.txt")
              (lit "http://a/files/doc.txt?x=1") (lit "READ (Tailscale)")
              (mk_upstream 404
                 [(lit "Content-Type", lit "text/plain");
                  (lit "Content-Length", lit "7");
                  (lit "Connection", lit "close")]
                 [list_byte_of_string "missing"])
              eq_refl eq_refl eq_refl) as [r [Hr [Hh _]]].
  exists r. split; [exact Hr | exact Hh].
Defined.

(** X9.  When [get_target_url] raises, the handler raises the same
    exception having logged nothing, whatever the upstream would have
    answered and whether or not [gui_instance] is bound: the failure
    happens before the routing line and before the upstream call. *)
Theorem url_failure_is_silent
        (rr : requests_args -> result upstream_response)
        (rie : list (str * str) -> option exn) (gi : option bool)
        (conf : dict value) (request : request) (path : str) (e : exn) :
  get_target_url conf request (req_method request) path = Raised e ->
  run (proxy rr rie gi conf request path) = (Raised e, []).
Proof. intros H. unfold run, proxy, bind, lift. now rewrite H. Qed.

Lemma url_failure_is_silent_witness :
  run (proxy upstream_404 no_init_error (Some true) number_conf demo_get
             (lit "files/doc.txt"))
  = (Raised (mk_exn AttributeError
               (lit "'int' object has no attribute 'rstrip'")), []).
Proof.
  exact (url_failure_is_silent upstream_404 no_init_error (Some true)
           number_conf demo_get (lit "files/doc.txt")
           (mk_exn AttributeError
              (lit "'int' object has no attribute 'rstrip'"))
           eq_refl).
Defined.

(** X10.  Once the target URL is built the handler logs the routing line
    first and at most one more line, and that second line goes with the
    502: an error line is logged exactly when the handler returns the error
    response made from the same exception. *)
Theorem log_matches_response
        (rr : requests_args -> result upstream_response)
        (rie : list (str * str) -> option exn) (gi : bool)
        (conf : dict value) (request : request) (path url rt : str) :
  get_target_url conf request (req_method request) path = Ok (url, rt) ->
  exists rest,
    snd (run (proxy rr rie (Some gi) conf request path))
    = emit gi (route_line request rt path) :: rest
    /\ ((exists e,
            rest = [emit gi (lit "Error: " ++ exn_text e)]
            /\ fst (run (proxy rr rie (Some gi) conf request path))
               = Ok (error_response e))
        \/ (rest = []
            /\ forall e, fst (run (proxy rr rie (Some gi) conf request path))
                         <> Ok (error_response e))).
Proof.
  intros Hurl. rewrite proxy_run, Hurl. cbv zeta.
  destruct (rr (outbound request url)) as [resp | e]; cbn [bindR].
  - unfold relay, make_Response.
    destruct (rie (filter_response_headers (up_headers resp))) as [e |].
    + destruct (is_Exception e).
      * eexists. split; [reflexivity |]. left. now exists e.
      * exists []. split; [reflexivity |]. right. split; [reflexivity |].
        intros e'. discriminate.
    + exists []. split; [reflexivity |]. right. split; [reflexivity |].
      intros e'. cbn [fst]. intros H. inversion H.
  - destruct (is_Exception e).
    + eexists. split; [reflexivity |]. left. now exists e.
    + exists []. split; [reflexivity |]. right. split; [reflexivity |].
      intros e'. discriminate.
Qed.

Lemma log_matches_response_witness :
  exists rest,
    snd (run (proxy upstream_refused no_init_error (Some false) demo_conf
                    demo_get (lit "files/doc.txt")))
    = Printed (lit "[GET] READ (Tailscale): /files/doc.txt") :: rest
    /\ ((exists e,
            rest = [emit false (lit "Error: " ++ exn_text e)]
            /\ fst (run (proxy upstream_refused no_init_error (Some false)
                               demo_conf demo_get (lit "files/doc.txt")))
               = Ok (error_response e))
        \/ (rest = []
            /\ forall e,
                fst (run (proxy upstream_refused no_init_error (Some false)
                                demo_conf demo_get (lit "files/doc.txt")))
                <> Ok (error_response e))).
Proof.
  exact (log_matches_response upstream_refused no_init_error false demo_conf
           demo_get (lit "files/doc.txt")
           (lit "http://a/files/doc.txt?x=1") (lit "READ (Tailscale)")
           eq_refl).
Defined.

(** X11.  The server thread, for a port that [int] accepts.  With
    [gui_instance] bound, [run_flask] logs the start line with the port in
    decimal; when [Flask.run] serves, that is all it logs; when [Flask.run]
    raises an exception derived from [Exception], [run_flask] logs one
    failure line with the exception's text and returns normally; an
    exception that is not derived from [Exception] passes through with no
    failure line.  With [gui_instance] not yet bound, [run_flask] raises
    [NameError] having logged nothing, whatever [Flask.run] would do. *)
Theorem run_flask_outcomes
        (gi : bool) (py_int : value -> result Z)
        (flask_run : Z -> result unit) (conf : dict value) (port : Z) :
  py_int (conf_get conf (lit "local_port") (VInt 8888)) = Ok port ->
  (flask_run port = Ok tt ->
   run (run_flask (Some gi) py_int flask_run conf)
   = (Ok tt, [emit gi (lit "服务启动中... 监听端口: " ++ str_of_Z port)]))
  /\ (forall e,
         flask_run port = Raised e ->
         is_Exception e = true ->
         run (run_flask (Some gi) py_int flask_run conf)
         = (Ok tt,
            [emit gi (lit "服务启动中... 监听端口: " ++ str_of_Z port);
             emit gi (lit "服务启动失败: " ++ exn_text e)]))
  /\ (forall e,
         flask_run port = Raised e ->
         is_Exception e = false ->
         run (run_flask (Some gi) py_int flask_run conf)
         = (Raised e,
            [emit gi (lit "服务启动中... 监听端口: " ++ str_of_Z port)]))
  /\ run (run_flask None py_int flask_run conf) = (Raised name_error, []).
Proof.
  intros Hint. unfold run, run_flask, try_except, bind, lift, log_message.
  rewrite Hint. cbn [app]. conjs.
  - intros Hrun. now rewrite Hrun.
  - intros e Hrun He. now rewrite Hrun, He.
  - intros e Hrun He. now rewrite Hrun, He.
  - reflexivity.
Qed.

Lemma run_flask_outcomes_witness :
  run (run_flask (Some true) (fun _ => Ok 70000%Z) port_out_of_range
                 [(lit "local_port", VStr (lit "70000"))])
  = (Ok tt,
     [GuiLog (lit "服务启动中... 监听端口: 70000");
      GuiLog (lit "服务启动失败: bind(): port must be 0-65535.")]).
Proof.
  destruct (run_flask_outcomes true (fun _ => Ok 70000%Z) port_out_of_range
              [(lit "local_port", VStr (lit "70000"))] 70000%Z eq_refl)
    as [_ [Hfail _]].
  exact (Hfail (mk_exn (OtherException (lit "OverflowError"))
                       (lit "bind(): port must be 0-65535."))
               eq_refl eq_refl).
Defined.

(* ================================================================== *)
(** * Further properties of the GUI callbacks *)

Lemma heap_set_set (p : loc) (d1 d2 : dict value) (h : heap) :
  heap_set p d2 (heap_set p d1 h) = heap_set p d2 h.
Proof.
  revert p. induction h as [| x r IH]; intros p; [reflexivity |].
  destruct p; simpl; [reflexivity | now rewrite IH].
Qed.

Lemma heap_set_get_same (p : loc) (h : heap) :
  heap_set p (heap_get h p) h = h.
Proof.
  unfold heap_get. revert p. induction h as [| x r IH]; intros p.
  - reflexivity.
  - destruct p; simpl; [reflexivity | now rewrite IH].
Qed.

Lemma dict_set_same {V : Type} (k : str) (v : V) (d : dict V) :
  dict_get k d = Some v -> dict_set k v d = d.
Proof.
  induction d as [| [k0 v0] r IH]; simpl; [discriminate |].
  destruct (str_eqb k0 k).
  - now intros [= ->].
  - intros H. now rewrite IH.
Qed.

(** One store through [self.config], seen on every part of the state. *)
Lemma set_self_config_step (k : str) (v : value) (w : world) (h : heap)
      (d : dict value) :
  w_heap w = heap_set (self_config (gui w)) d h ->
  (self_config (gui w) < List.length h)%nat ->
  exec_stmt (SetSelfConfig k v) w
  = mk_world (heap_set (self_config (gui w)) (dict_set k v d) h)
             (app_state w) (gui w) (sink w) (dialogs w) (threads_started w).
Proof.
  intros Hh Hp. cbn [exec_stmt]. unfold store. rewrite Hh.
  rewrite heap_get_set by assumption. now rewrite heap_set_set.
Qed.

Lemma set_self_config_record (k : str) (v : value) (h : heap)
      (d : dict value) (a : AppState) (g : SmartGatewayGUI)
      (s : list log_event) (dl : list dialog) (t : nat) :
  (self_config g < List.length h)%nat ->
  exec_stmt (SetSelfConfig k v)
            (mk_world (heap_set (self_config g) d h) a g s dl t)
  = mk_world (heap_set (self_config g) (dict_set k v d) h) a g s dl t.
Proof.
  intros Hp.
  now rewrite (set_self_config_step k v
                 (mk_world (heap_set (self_config g) d h) a g s dl t) h d).
Qed.

Lemma save_config_unfold (write_error : option exn) (w : world) :
  save_config write_error w
  = exec_stmt
      (Dialog (match write_error with
               | None => ShowInfo (lit "成功") (lit "配置已保存")
               | Some e =>
                 ShowError (lit "错误") (lit "保存失败: " ++ exn_text e)
               end))
      (exec_stmt PublishConfig
         (exec_stmts
            [ SetSelfConfig (lit "tailscale_url") (VStr (ts_url_var (gui w)));
              SetSelfConfig (lit "cloudflare_url")
                            (VStr (cf_url_var (gui w)));
              SetSelfConfig (lit "local_port") (VStr (port_var (gui w)));
              SetSelfConfig (lit "auto_start")
                            (VBool (auto_start_var (gui w))) ] w)).
Proof. reflexivity. Qed.

Lemma save_config_tail (d : dialog) (w : world) :
  exec_stmt (Dialog d) (exec_stmt PublishConfig w)
  = mk_world (w_heap w)
             (mk_AppState (running (app_state w)) (self_config (gui w))
                          (server_thread (app_state w)))
             (gui w) (sink w) (dialogs w ++ [d]) (threads_started w).
Proof. reflexivity. Qed.

(** The four stores of [save_config]. *)
Lemma save_config_stores (w : world) :
  (self_config (gui w) < List.length (w_heap w))%nat ->
  exec_stmts
    [ SetSelfConfig (lit "tailscale_url") (VStr (ts_url_var (gui w)));
      SetSelfConfig (lit "cloudflare_url") (VStr (cf_url_var (gui w)));
      SetSelfConfig (lit "local_port") (VStr (port_var (gui w)));
      SetSelfConfig (lit "auto_start") (VBool (auto_start_var (gui w))) ] w
  = mk_world
      (heap_set (self_config (gui w))
         (dict_set (lit "auto_start") (VBool (auto_start_var (gui w)))
            (dict_set (lit "local_port") (VStr (port_var (gui w)))
               (dict_set (lit "cloudflare_url") (VStr (cf_url_var (gui w)))
                  (dict_set (lit "tailscale_url") (VStr (ts_url_var (gui w)))
                     (heap_get (w_heap w) (self_config (gui w)))))))
         (w_heap w))
      (app_state w) (gui w) (sink w) (dialogs w) (threads_started w).
Proof.
  intros Hp. unfold exec_stmts. cbn [fold_left].
  rewrite (set_self_config_step _ _ w (w_heap w)
             (heap_get (w_heap w) (self_config (gui w))))
    by (now rewrite ?heap_set_get_same).
  now rewrite !set_self_config_record by assumption.
Qed.

Lemma save_config_result (write_error : option exn) (w : world) :
  (self_config (gui w) < List.length (w_heap w))%nat ->
  save_config write_error w
  = mk_world
      (heap_set (self_config (gui w))
         (dict_set (lit "auto_start") (VBool (auto_start_var (gui w)))
            (dict_set (lit "local_port") (VStr (port_var (gui w)))
               (dict_set (lit "cloudflare_url") (VStr (cf_url_var (gui w)))
                  (dict_set (lit "tailscale_url") (VStr (ts_url_var (gui w)))
                     (heap_get (w_heap w) (self_config (gui w)))))))
         (w_heap w))
      (mk_AppState (running (app_state w)) (self_config (gui w))
                   (server_thread (app_state w)))
      (gui w) (sink w)
      (dialogs w
       ++ [match write_error with
           | None => ShowInfo (lit "成功") (lit "配置已保存")
           | Some e => ShowError (lit "错误") (lit "保存失败: " ++ exn_text e)
           end])
      (threads_started w).
Proof.
  intros Hp. rewrite save_config_unfold, save_config_stores by assumption.
  reflexivity.
Qed.

Lemma toggle_server_running (w : world) :
  running (app_state w) = true ->
  toggle_server w
  = mk_world (w_heap w) (app_state w) (gui w) (sink w)
             (dialogs w ++ [stop_warning]) (threads_started w).
Proof.
  intros H. unfold toggle_server, toggle_server_stmts. now rewrite H.
Qed.

Lemma toggle_server_started (w : world) :
  running (app_state w) = false ->
  running (app_state (toggle_server w)) = true
  /\ threads_started (toggle_server w) = S (threads_started w)
  /\ dialogs (toggle_server w) = dialogs w.
Proof.
  intros Hstop. rewrite toggle_server_stopped by assumption.
  unfold exec_stmts. cbn [fold_left]. conjs.
  - repeat (rewrite running_exec; cbv iota). reflexivity.
  - repeat (rewrite threads_exec; cbv iota). reflexivity.
  - repeat (rewrite dialogs_exec; cbv iota). reflexivity.
Qed.

(** X12.  However often the start button's callback runs, one server thread
    is started: the first call on a stopped server starts it, and each
    later call only shows the warning that stopping needs a restart,
    leaving the thread count and the active configuration as the first
    call left them. *)
Theorem one_server_thread (w : world) (n : nat) :
  running (app_state w) = false ->
  running (app_state (Nat.iter (S n) toggle_server w)) = true
  /\ threads_started (Nat.iter (S n) toggle_server w)
     = S (threads_started w)
  /\ active_config (Nat.iter (S n) toggle_server w)
     = active_config (toggle_server w)
  /\ dialogs (Nat.iter (S n) toggle_server w)
     = dialogs w ++ repeat stop_warning n.
Proof.
  intros Hstop. induction n as [| n [Hrun [Hthr [Hcfg Hdlg]]]].
  - destruct (toggle_server_started w Hstop) as [Hrun [Hthr Hdlg]].
    cbn [Nat.iter nat_rect repeat]. rewrite app_nil_r. now conjs.
  - change (Nat.iter (S (S n)) toggle_server w)
      with (toggle_server (Nat.iter (S n) toggle_server w)).
    rewrite toggle_server_running by assumption.
    cbn [app_state running threads_started dialogs]. conjs.
    + assumption.
    + assumption.
    + rewrite <- Hcfg. reflexivity.
    + rewrite Hdlg, <- app_assoc. f_equal.
      change (repeat stop_warning (S n)) with (stop_warning :: repeat stop_warning n).
      symmetry. apply repeat_cons.
Qed.

Lemma one_server_thread_witness :
  threads_started (Nat.iter 3 toggle_server empty_world) = 1%nat
  /\ dialogs (Nat.iter 3 toggle_server empty_world)
     = [stop_warning; stop_warning].
Proof.
  destruct (one_server_thread empty_world 2 eq_refl) as [_ [Hthr [_ Hdlg]]].
  split; [exact Hthr | exact Hdlg].
Defined.

Lemma running_exec_true (s : stmt) (w : world) :
  running (app_state w) = true ->
  running (app_state (exec_stmt s w)) = true.
Proof. intros H. rewrite running_exec. now destruct s. Qed.

(** X13.  Nothing stops the server: once the running flag is set, no
    statement of the callbacks and no step of a request clears it, in any
    interleaving. *)
Theorem running_never_reset (ticks : list tick) (s : sys) :
  running (app_state (sys_world s)) = true ->
  running (app_state (sys_world (sys_run ticks s))) = true.
Proof.
  revert s. induction ticks as [| t ticks IH]; intros s H; [assumption |].
  simpl. apply IH. destruct t as [| i]; simpl; [| assumption].
  destruct (gui_todo s) as [| st rest]; [assumption |].
  now apply running_exec_true.
Qed.

Lemma running_never_reset_witness :
  running
    (app_state
       (sys_world
          (sys_run [TickGui; TickReq 0%nat; TickGui; TickGui; TickGui;
                    TickGui; TickGui]
                   (mk_sys (toggle_server demo_world)
                           (save_config_stmts None demo_world)
                           [mk_in_flight demo_get (lit "f") AtEntry]))))
  = true.
Proof.
  apply (running_never_reset
           [TickGui; TickReq 0%nat; TickGui; TickGui; TickGui; TickGui;
            TickGui]
           (mk_sys (toggle_server demo_world)
                   (save_config_stmts None demo_world)
                   [mk_in_flight demo_get (lit "f") AtEntry])).
  reflexivity.
Defined.

Lemma shared_config_exec (s : stmt) (w : world) :
  shared_config w -> shared_config (exec_stmt s w).
Proof.
  unfold shared_config. intros [Ha Hv].
  destruct s; cbn [exec_stmt]; unfold store; simpl;
    rewrite ?heap_set_length; try (split; assumption).
  split; [reflexivity | now rewrite Ha].
Qed.

Lemma shared_config_load (file : option (dict value)) (w : world) :
  shared_config (load_config file w).
Proof.
  unfold shared_config, load_config. simpl. split; [reflexivity |].
  rewrite length_app. simpl. lia.
Qed.

(** X14.  After [load_config] the window's [self.config] and
    [app_state.config] are one dictionary object, and they stay one
    through every statement of the callbacks in every interleaving with
    requests: what the window stores is what the requests read. *)
Theorem config_stays_shared (file : option (dict value)) (w0 : world)
        (todo : list stmt) (fl : list in_flight) (ticks : list tick) :
  shared_config
    (sys_world (sys_run ticks (mk_sys (load_config file w0) todo fl))).
Proof.
  assert (H : forall ticks s, shared_config (sys_world s) ->
                              shared_config (sys_world (sys_run ticks s))).
  { clear. induction ticks as [| t ticks IH]; intros s H; [assumption |].
    simpl. apply IH. destruct t as [| i]; simpl; [| assumption].
    destruct (gui_todo s) as [| st rest]; [assumption |].
    now apply shared_config_exec. }
  apply H. apply shared_config_load.
Qed.

(** X15.  A failed write of the configuration file does not undo the
    change: [save_config] leaves the same state, live configuration
    included, whether the write succeeds or raises, and only the dialog
    differs. *)
Theorem failed_write_still_applies (e : exn) (w : world) :
  save_config (Some e) w
  = mk_world (w_heap (save_config None w)) (app_state (save_config None w))
             (gui (save_config None w)) (sink (save_config None w))
             (dialogs w
              ++ [ShowError (lit "错误") (lit "保存失败: " ++ exn_text e)])
             (threads_started (save_config None w))
  /\ dialogs (save_config None w)
     = dialogs w ++ [ShowInfo (lit "成功") (lit "配置已保存")].
Proof.
  rewrite !save_config_unfold, !save_config_tail.
  cbn [w_heap app_state gui sink dialogs threads_started].
  unfold exec_stmts. cbn [fold_left].
  repeat (rewrite dialogs_exec; cbv iota). now split.
Qed.

(** X16.  [save_config] overwrites exactly four entries of the live
    configuration with the form's values, the port as text and the
    auto-start flag as a truth value; every other entry stays, and neither
    the running flag, the thread count nor the log changes: saving never
    starts the server. *)
Theorem save_overwrites_four (write_error : option exn) (w : world)
        (k : str) :
  (self_config (gui w) < List.length (w_heap w))%nat ->
  dict_get k (active_config (save_config write_error w))
  = (if str_eqb (lit "auto_start") k
     then Some (VBool (auto_start_var (gui w)))
     else if str_eqb (lit "local_port") k
     then Some (VStr (port_var (gui w)))
     else if str_eqb (lit "cloudflare_url") k
     then Some (VStr (cf_url_var (gui w)))
     else if str_eqb (lit "tailscale_url") k
     then Some (VStr (ts_url_var (gui w)))
     else dict_get k (heap_get (w_heap w) (self_config (gui w))))
  /\ running (app_state (save_config write_error w))
     = running (app_state w)
  /\ threads_started (save_config write_error w) = threads_started w
  /\ sink (save_config write_error w) = sink w.
Proof.
  intros Hp. rewrite save_config_result by assumption.
  unfold active_config. cbn [w_heap app_state config running
                             threads_started sink].
  rewrite heap_get_set by assumption. now rewrite !dict_get_set.
Qed.

Lemma save_overwrites_four_witness :
  dict_get (lit "local_port") (active_config (save_config None demo_world))
  = Some (VStr (lit "8888"))
  /\ running (app_state (save_config None demo_world)) = false.
Proof.
  destruct (save_overwrites_four None demo_world (lit "local_port"))
    as [Hget [Hrun _]].
  - vm_compute. lia.
  - split; [exact Hget | exact Hrun].
Defined.

(** X17.  [toggle_server] on a stopped server overwrites exactly three
    entries of the live configuration, the two upstreams and the port, with
    the form's values; the auto-start entry and every other entry stay as
    they were. *)
Theorem start_overwrites_three (w : world) (k : str) :
  running (app_state w) = false ->
  (config (app_state w) < List.length (w_heap w))%nat ->
  dict_get k (active_config (toggle_server w))
  = if str_eqb (lit "local_port") k
    then Some (VStr (port_var (gui w)))
    else if str_eqb (lit "cloudflare_url") k
    then Some (VStr (cf_url_var (gui w)))
    else if str_eqb (lit "tailscale_url") k
    then Some (VStr (ts_url_var (gui w)))
    else dict_get k (active_config w).
Proof.
  intros Hstop Hvalid. rewrite toggle_server_config by assumption.
  now rewrite !dict_get_set.
Qed.

Lemma start_overwrites_three_witness :
  dict_get (lit "auto_start") (active_config (toggle_server demo_world))
  = Some (VBool false).
Proof.
  rewrite (start_overwrites_three demo_world (lit "auto_start") eq_refl).
  - reflexivity.
  - vm_compute. lia.
Defined.

Lemma form_url_entry (conf : dict value) (g : SmartGatewayGUI)
      (method : str) :
  conf_get conf (lit "tailscale_url") (VStr []) = VStr (ts_url_var g) ->
  conf_get conf (lit "cloudflare_url") (VStr []) = VStr (cf_url_var g) ->
  conf_get conf (route_key method) (VStr []) = VStr (form_url g method).
Proof.
  intros Hts Hcf. unfold route_key, form_url.
  now destruct (str_in (upper method) READ_METHODS).
Qed.

(** X18.  A saved change takes effect at once, without a restart: a request
    handled after [save_config] is routed to the upstream that stands in
    the form, read or write by its method, with trailing slashes stripped. *)
Theorem request_after_save (write_error : option exn) (w : world)
        (request : request) (method path q : str) :
  (self_config (gui w) < List.length (w_heap w))%nat ->
  utf8_decode (req_query_string request) = Some q ->
  get_target_url (active_config (save_config write_error w)) request method
                 path
  = Ok (rstrip (lit "/") (form_url (gui w) method) ++ lit "/" ++ path
        ++ query_suffix request q,
        route_label method).
Proof.
  intros Hp Hq.
  destruct (saved_config_is_text write_error w Hp) as [Hts Hcf].
  apply get_target_url_text; [| assumption].
  now apply form_url_entry.
Qed.

Lemma request_after_save_witness :
  get_target_url (active_config (save_config None demo_world)) demo_get
                 (lit "GET") (lit "files/doc.txt")
  = Ok (lit "http://new-read/files/doc.txt?x=1", lit "READ (Tailscale)").
Proof.
  rewrite (request_after_save None demo_world demo_get (lit "GET")
             (lit "files/doc.txt") (lit "x=1")).
  - reflexivity.
  - vm_compute. lia.
  - reflexivity.
Defined.

(** X19.  A request handled after the server was started is routed to the
    upstream that stood in the form when the start button was pressed, not
    to the one of the configuration file. *)
Theorem request_after_start (w : world) (request : request)
        (method path q : str) :
  running (app_state w) = false ->
  (config (app_state w) < List.length (w_heap w))%nat ->
  utf8_decode (req_query_string request) = Some q ->
  get_target_url (active_config (toggle_server w)) request method path
  = Ok (rstrip (lit "/") (form_url (gui w) method) ++ lit "/" ++ path
        ++ query_suffix request q,
        route_label method).
Proof.
  intros Hstop Hvalid Hq.
  destruct (started_config_is_text w Hstop Hvalid) as [Hts Hcf].
  apply get_target_url_text; [| assumption].
  now apply form_url_entry.
Qed.

Lemma request_after_start_witness :
  get_target_url (active_config (toggle_server demo_world)) demo_put
                 (lit "PUT") (lit "files/doc.txt")
  = Ok (lit "http://new-write/files/doc.txt", lit "WRITE (Cloudflare)").
Proof.
  rewrite (request_after_start demo_world demo_put (lit "PUT")
             (lit "files/doc.txt") [] eq_refl).
  - reflexivity.
  - vm_compute. lia.
  - reflexivity.
Defined.

(** X20.  Saving twice is saving once: a second [save_config] with the form
    unchanged leaves the heap, the shared state and the form as the first
    left them, whatever the outcome of either file write; it only shows
    its dialog. *)
Theorem save_config_twice (e1 e2 : option exn) (w : world) :
  (self_config (gui w) < List.length (w_heap w))%nat ->
  w_heap (save_config e2 (save_config e1 w)) = w_heap (save_config e1 w)
  /\ app_state (save_config e2 (save_config e1 w))
     = app_state (save_config e1 w)
  /\ gui (save_config e2 (save_config e1 w)) = gui (save_config e1 w).
Proof.
  intros Hp. rewrite (save_config_result e1 w Hp).
  rewrite save_config_result
    by (cbn [gui w_heap]; now rewrite heap_set_length).
  cbn [w_heap app_state gui running server_thread]. conjs; try reflexivity.
  rewrite heap_get_set, heap_set_set by assumption. f_equal.
  set (d0 := heap_get (w_heap w) (self_config (gui w))).
  rewrite (dict_set_same (lit "tailscale_url"))
    by (rewrite !dict_get_set; eval_key_tests; reflexivity).
  rewrite (dict_set_same (lit "cloudflare_url"))
    by (rewrite !dict_get_set; eval_key_tests; reflexivity).
  rewrite (dict_set_same (lit "local_port"))
    by (rewrite !dict_get_set; eval_key_tests; reflexivity).
  rewrite (dict_set_same (lit "auto_start"))
    by (rewrite !dict_get_set; eval_key_tests; reflexivity).
  reflexivity.
Qed.

Lemma save_config_twice_witness :
  w_heap (save_config None (save_config None demo_world))
  = w_heap (save_config None demo_world).
Proof.
  destruct (save_config_twice None None demo_world) as [Hheap _].
  - vm_compute. lia.
  - exact Hheap.
Defined.
